(** * TechTrove server (index.js): a shallow embedding of the route handlers

    The server is an Express application whose handlers talk to two MongoDB
    collections ([techtrove_users] and [techtrove_products]).  Each handler
    of [index.js] is embedded as a function in a small monad that threads
    the database, records the store operations that were issued and
    distinguishes a normal completion from a thrown exception.

    The libraries the handlers call are modelled as follows.
    - JavaScript values and BSON documents: the inductive type [value];
      objects are finite maps from property names to values.
    - The MongoDB driver: an in-memory store, a collection being the list of
      its documents in natural order.  Only a fragment of the query and
      update language is covered; an operation that leaves the fragment
      yields [Beyond], about which nothing is stated.
    - [bcrypt.hash], [bcrypt.compare], [String.prototype.toLowerCase] and
      the [Date] constructor: parameters of the section [Handlers].
    - The values a request draws from its environment (the generated
      [ObjectId], the clock, the random salt): the record [env].

    A handler runs from its request to its response without interleaving
    with another one; the one interleaving that is studied, two signups
    that overlap at the [await] of their lookup, is built from
    [signup_resume].  Request bodies are the objects [express.json()]
    produces.  The store's resource limits (document size, nesting depth),
    logging to the console, the route [/] and the start-up of the server are
    not part of the model. *)

From stdpp Require Import gmap strings list fin_maps.
From Stdlib Require Import Ascii ZArith.

Local Open Scope Z_scope.

(** ** JavaScript values

    The values found in JSON request bodies, in the documents of the store
    and in the objects sent with a response.  Numbers are the integral ones.
    An object is a finite map from property names to values; the order of
    its properties is not represented.  [VDate None] is an invalid date. *)

#[warnings="-register-all"]
Inductive value :=
| VUndefined
| VNull
| VBool (b : bool)
| VNum (n : Z)
| VStr (s : string)
| VDate (t : option Z)
| VObjectId (hex : string)
| VArr (l : list value)
| VObj (o : gmap string value).

Abbreviation document := (gmap string value).

Fixpoint value_eq_dec (x y : value) {struct x} : Decision (x = y).
Proof.
  refine (match x, y with
  | VUndefined, VUndefined => left _
  | VNull, VNull => left _
  | VBool a, VBool b => cast_if (decide (a = b))
  | VNum a, VNum b => cast_if (decide (a = b))
  | VStr a, VStr b => cast_if (decide (a = b))
  | VDate a, VDate b => cast_if (decide (a = b))
  | VObjectId a, VObjectId b => cast_if (decide (a = b))
  | VArr a, VArr b =>
      cast_if (@decide (a = b) (@list_eq_dec _ value_eq_dec a b))
  | VObj a, VObj b =>
      cast_if (@decide (a = b) (@gmap_eq_dec _ _ _ _ value_eq_dec a b))
  | _, _ => right _
  end); try abstract congruence.
Defined.

#[export] Instance value_eqdec : EqDecision value := value_eq_dec.

(** [ToBoolean]: the test performed by [!x] and [if (x)]. *)
Definition truthy (v : value) : bool :=
  match v with
  | VUndefined | VNull => false
  | VBool b => b
  | VNum n => negb (n =? 0)
  | VStr s => negb (bool_decide (s = ""))
  | VDate _ | VObjectId _ | VArr _ | VObj _ => true
  end.

(** The [typeof] operator, as printed in bcryptjs' error messages. *)
Definition typeof (v : value) : string :=
  match v with
  | VUndefined => "undefined"
  | VBool _ => "boolean"
  | VNum _ => "number"
  | VStr _ => "string"
  | VNull | VDate _ | VObjectId _ | VArr _ | VObj _ => "object"
  end.

(** Property read [o.k]: [undefined] when the property is absent. *)
Definition get (o : document) (k : string) : value :=
  default VUndefined (o !! k).

(** An object literal [{ k1: v1, ..., kn: vn }]. *)
Definition object (l : list (string * value)) : document := list_to_map l.

(** ** Strings *)

Fixpoint string_forallb (p : ascii → bool) (s : string) : bool :=
  match s with
  | EmptyString => true
  | String c s' => p c && string_forallb p s'
  end.

Fixpoint string_map (f : ascii → ascii) (s : string) : string :=
  match s with
  | EmptyString => EmptyString
  | String c s' => String (f c) (string_map f s')
  end.

Definition code (c : ascii) : nat := nat_of_ascii c.

Definition in_range (lo hi : nat) (c : ascii) : bool :=
  ((lo <=? code c) && (code c <=? hi))%nat.

(** Folding of the letters [A-Z] onto [a-z]; every other byte is kept. *)
Definition lower_ascii (c : ascii) : ascii :=
  if in_range 65 90 c then ascii_of_nat (code c + 32) else c.

(** ** Object identifiers

    [ObjectId.isValid(id)] and [new ObjectId(id)] on a string [id], as in
    bson 6 and later: the string is accepted exactly when it consists of 24
    hexadecimal digits.  An identifier is kept as the lower-case hexadecimal
    string that [toString()] prints. *)

Definition is_hex_digit (c : ascii) : bool :=
  in_range 48 57 c || in_range 65 70 c || in_range 97 102 c.

Definition ObjectId_isValid (id : string) : bool :=
  bool_decide (String.length id = 24%nat) && string_forallb is_hex_digit id.

Definition BSONError_message : string :=
  "input must be a 24 character hex string, 12 byte Uint8Array, or an integer".

(** [new ObjectId(id)]: the identifier, or the message of the [BSONError]. *)
Definition new_ObjectId (id : string) : string + value :=
  if ObjectId_isValid id then inr (VObjectId (string_map lower_ascii id))
  else inl BSONError_message.

(** ** The database and the handler monad *)

(** The two collections.  The documents of a collection are listed in
    natural order, which is taken to be the order of insertion. *)
Inductive collection := Users | Products.

Record db := Db { users : list document; products : list document }.

Definition coll_get (c : collection) (d : db) : list document :=
  match c with Users => users d | Products => products d end.

Definition coll_set (c : collection) (l : list document) (d : db) : db :=
  match c with
  | Users => {| users := l; products := products d |}
  | Products => {| users := users d; products := l |}
  end.

(** A query document [{ k1: c1, ... }]: each field is compared with a value
    ([{ k: v }]) or tested with [{ k: { $regex: p, $options: o } }]. *)
Inductive cond :=
| CEq (v : value)
| CRegex (pattern : value) (options : string).

Abbreviation query := (list (string * cond)).

(** The store operations a handler issues, in program order. *)
Inductive store_op :=
| OpFindOne (c : collection) (q : query)
| OpFind (c : collection) (q : query)
| OpInsertOne (c : collection) (doc : document)
| OpUpdateOne (c : collection) (q : query) (set : document)
| OpDeleteOne (c : collection) (q : query).

(** The outcome of running a piece of handler code on a database. *)
Inductive outcome (A : Type) :=
| Ret (a : A) (d : db) (ops : list store_op)
| Throw (msg : string) (d : db) (ops : list store_op)
| Beyond.
Arguments Ret {A} a d ops.
Arguments Throw {A} msg d ops.
Arguments Beyond {A}.

Definition M (A : Type) : Type := db → outcome A.

Definition ret_M {A} (a : A) : M A := λ d, Ret a d [].

Definition throw {A} (msg : string) : M A := λ d, Throw msg d [].

Definition bind_M {A B} (m : M A) (f : A → M B) : M B := λ d,
  match m d with
  | Ret a d1 o1 =>
      match f a d1 with
      | Ret b d2 o2 => Ret b d2 (o1 ++ o2)
      | Throw msg d2 o2 => Throw msg d2 (o1 ++ o2)
      | Beyond => Beyond
      end
  | Throw msg d1 o1 => Throw msg d1 o1
  | Beyond => Beyond
  end.

Notation "x ←' m ; k" := (bind_M m (λ x, k))
  (at level 20, m at level 100, k at level 200, only parsing).
Notation "' p ←' m ; k" := (bind_M m (λ x, match x with p => k end))
  (at level 20, p pattern, m at level 100, k at level 200, only parsing).

(** ** HTTP responses *)

Record response := Response { status : nat; body : value }.

(** [res.status(n).send(o)] for an object [o]; [res.send(o)] is [send 200]. *)
Definition send (n : nat) (o : value) : M response :=
  ret_M {| status := n; body := o |}.

Definition error_body (msg : string) : value :=
  VObj (object [("error", VStr msg)]).

(** What a request leaves behind: the response, the database and the store
    operations performed. *)
Record reply := Reply { resp : response; store : db; trace : list store_op }.

(** [try { ... } catch (err) { res.status(500).send({ error: err.message }) }]
    around a handler body. *)
Definition try_catch (m : M response) (d : db) : option reply :=
  match m d with
  | Ret r d' ops => Some {| resp := r; store := d'; trace := ops |}
  | Throw msg d' ops =>
      Some {| resp := {| status := 500; body := error_body msg |};
              store := d'; trace := ops |}
  | Beyond => None
  end.

(** ** Regular expressions

    The fragment of the store's regular-expression language that is
    covered: a pattern is a sequence of printable ASCII characters, each of
    them an ordinary character or the metacharacter [.]; it is searched,
    unanchored and without regard to letter case (option [i]), in a subject
    made of printable ASCII characters.  Patterns with another
    metacharacter and subjects with other bytes are left to [Beyond],
    except for the patterns with an unclosed group ([unclosed_group]),
    which the store refuses. *)

Inductive item := Lit (c : ascii) | AnyChar.

Definition printable (c : ascii) : bool := in_range 32 126 c.

Definition is_meta (c : ascii) : bool :=
  match c with
  | "\" | "^" | "$" | "." | "|" | "?" | "*" | "+"
  | "(" | ")" | "[" | "]" | "{" | "}" => true
  | _ => false
  end%char.

Definition parse_item (c : ascii) : option item :=
  if bool_decide (c = "."%char) then Some AnyChar
  else if printable c && negb (is_meta c) then Some (Lit c)
  else None.

Fixpoint parse_pattern (p : string) : option (list item) :=
  match p with
  | EmptyString => Some []
  | String c p' =>
      i ← parse_item c; rest ← parse_pattern p'; Some (i :: rest)
  end.

(** A pattern that the store refuses to compile: ordinary characters and
    dots around a single [(], which opens a group that is never closed. *)
Fixpoint unclosed_group (p : string) : bool :=
  match p with
  | EmptyString => false
  | String c p' =>
      if bool_decide (c = "("%char)
      then bool_decide (is_Some (parse_pattern p'))
      else bool_decide (is_Some (parse_item c)) && unclosed_group p'
  end.

(** The message of the store for such a pattern (MongoDB 6.1 and later). *)
Definition invalid_regex_message : string :=
  "Regular expression is invalid: missing closing parenthesis".

Definition item_ok (i : item) (c : ascii) : bool :=
  match i with
  | Lit a => bool_decide (lower_ascii a = lower_ascii c)
  | AnyChar => true
  end.

(** The pattern matches at the start of the subject. *)
Fixpoint match_here (p : list item) (s : string) : bool :=
  match p with
  | [] => true
  | i :: p' =>
      match s with
      | EmptyString => false
      | String c s' => item_ok i c && match_here p' s'
      end
  end.

(** The pattern matches somewhere in the subject. *)
Fixpoint search (p : list item) (s : string) : bool :=
  match_here p s ||
  match s with
  | EmptyString => false
  | String _ s' => search p s'
  end.

Definition regex_value (p : list item) (v : value) : option bool :=
  match v with
  | VStr t => if string_forallb printable t then Some (search p t) else None
  | _ => Some false
  end.

(** [$regex] on a field: a string field is searched; an array field
    matches when one of its elements does; anything else does not match. *)
Definition regex_test (p : list item) (fv : value) : option bool :=
  match fv with
  | VArr l => existsb id <$> mapM (regex_value p) l
  | _ => regex_value p fv
  end.

(** ** Queries

    Equality of a field with a string or an [ObjectId], and [$regex] with
    the option [i], are covered.  A comparison value of another type (in
    particular an object, which the store may read as a set of query
    operators) is left to [Beyond].  A [$regex] whose pattern has an
    unclosed group is refused by the store, which makes the call fail. *)

Inductive test := TEq (v : value) | TRegexI (p : list item).

Definition compile (c : cond) : option test :=
  match c with
  | CEq (VStr s) => Some (TEq (VStr s))
  | CEq (VObjectId o) => Some (TEq (VObjectId o))
  | CRegex (VStr p) o =>
      if bool_decide (o = "i") then TRegexI <$> parse_pattern p else None
  | _ => None
  end.

(** [{ k: v }] selects the documents whose field [k] equals [v] or is an
    array with [v] among its elements. *)
Definition eq_match (q fv : value) : bool :=
  bool_decide (fv = q) ||
  match fv with VArr l => bool_decide (q ∈ l) | _ => false end.

Definition run_test (t : test) (fv : value) : option bool :=
  match t with
  | TEq q => Some (eq_match q fv)
  | TRegexI p => regex_test p fv
  end.

(** All the fields of a query must hold (logical AND). *)
Definition sat (ts : list (string * test)) (doc : document) : option bool :=
  forallb id <$> mapM (λ kt, run_test kt.2 (get doc kt.1)) ts.

Definition holds (ts : list (string * test)) (doc : document) : Prop :=
  sat ts doc = Some true.

#[export] Instance holds_dec ts doc : Decision (holds ts doc).
Proof. unfold holds. apply _. Defined.

(** The tests of a query, provided the query and its evaluation on every
    document of the collection stay within the fragment. *)
Definition resolve (q : query) (docs : list document)
  : option (list (string * test)) :=
  ts ← mapM (λ kc, pair kc.1 <$> compile kc.2) q;
  if bool_decide (Forall (λ doc, is_Some (sat ts doc)) docs)
  then Some ts else None.

(** [collection.findOne(q)]: the first matching document, or [null]. *)
Definition findOne (c : collection) (q : query) : M (option document) :=
  λ d,
  match resolve q (coll_get c d) with
  | Some ts => Ret (snd <$> list_find (holds ts) (coll_get c d)) d [OpFindOne c q]
  | None => Beyond
  end.

(** A condition that the store refuses when it parses the query. *)
Definition refused (c : cond) : bool :=
  match c with
  | CRegex (VStr p) o => bool_decide (o = "i") && unclosed_group p
  | _ => false
  end.

(** The query is refused: one of its conditions is, and the others are
    within the fragment. *)
Definition query_refused (q : query) : bool :=
  existsb (λ kc, refused kc.2) q &&
  forallb (λ kc, refused kc.2 || bool_decide (is_Some (compile kc.2))) q.

(** [collection.find(q).toArray()]: the matching documents in natural
    order; the call fails when the store refuses the query. *)
Definition find_toArray (c : collection) (q : query) : M (list document) := λ d,
  if query_refused q then Throw invalid_regex_message d [OpFind c q]
  else
    match resolve q (coll_get c d) with
    | Some ts => Ret (filter (holds ts) (coll_get c d)) d [OpFind c q]
    | None => Beyond
    end.

(** ** The environment of a request *)

Record env := Env {
  env_oid : string;   (* the ObjectId the driver generates, in hex *)
  env_now : Z;        (* the clock read by [new Date()], in milliseconds *)
  env_salt : string   (* the random bytes bcrypt draws for its salt *)
}.

Definition dup_key_message (c : collection) (hex : string) : string :=
  "E11000 duplicate key error collection: techtrove_db." +:+
  match c with Users => "techtrove_users" | Products => "techtrove_products" end
  +:+ " index: _id_ dup key: { _id: ObjectId('" +:+ hex +:+ "') }".

(** The same message for an identifier that is a string. *)
Definition quote_mark : string := String (ascii_of_nat 34) EmptyString.

Definition dup_key_message_string (c : collection) (s : string) : string :=
  "E11000 duplicate key error collection: techtrove_db." +:+
  match c with Users => "techtrove_users" | Products => "techtrove_products" end
  +:+ " index: _id_ dup key: { _id: " +:+ quote_mark +:+ s +:+ quote_mark
  +:+ " }".

(** The strings that the message above shows as they are: printable ASCII
    without the quotation mark and the backslash. *)
Definition key_text (s : string) : bool :=
  string_forallb (λ c, printable c && negb (code c =? 34)%nat
                       && negb (code c =? 92)%nat) s.

(** [collection.insertOne(doc)].  For a document whose [_id] is absent or
    [null] the driver assigns the generated identifier to [doc._id] (the
    caller's object is updated in place); a document that brings a string
    as [_id] keeps it.  The store appends the document, unless its
    identifier is already in use.  Returns [insertedId] and the caller's
    object after the call.  An [_id] of another type is left to
    [Beyond]. *)
Definition insertOne (e : env) (c : collection) (doc : document)
  : M (value * document) := λ d,
  match doc !! "_id" with
  | Some (VStr s) =>
      if key_text s then
        if bool_decide (Exists (λ x, get x "_id" = VStr s) (coll_get c d))
        then Throw (dup_key_message_string c s) d [OpInsertOne c doc]
        else Ret (VStr s, doc) (coll_set c (coll_get c d ++ [doc]) d)
                 [OpInsertOne c doc]
      else Beyond
  | Some VNull | None =>
      let id := VObjectId (env_oid e) in
      let doc' := <["_id" := id]> doc in
      if bool_decide (Exists (λ x, get x "_id" = id) (coll_get c d))
      then Throw (dup_key_message c (env_oid e)) d [OpInsertOne c doc]
      else Ret (id, doc') (coll_set c (coll_get c d ++ [doc']) d)
               [OpInsertOne c doc]
  | Some _ => Beyond
  end.

(** ** Values as the store keeps them

    A document reaches the store in BSON.  The values of a JSON request
    body, valid dates and [ObjectId]s are kept as they are.  BSON has no
    invalid date: the driver writes the time value of a [Date], and the
    time value [NaN] of an invalid one is written as 0, the epoch
    (1970-01-01T00:00:00.000Z).  A property that is [undefined] is written
    as [null]. *)
Fixpoint bson (v : value) : value :=
  match v with
  | VUndefined => VNull
  | VDate None => VDate (Some 0)
  | VArr l => VArr (bson <$> l)
  | VObj o => VObj (bson <$> o)
  | _ => v
  end.

(** ** Updates

    [{ $set: patch }] is covered for patches whose keys are plain top-level
    field names: not empty, not starting with [$], and free of [.] (a dotted
    key addresses a nested field) and of the NUL byte.  An empty patch is
    accepted and changes nothing (MongoDB 5.0 and later). *)

Definition plain_char (c : ascii) : bool :=
  negb (bool_decide (c = "."%char)) && negb (bool_decide (c = "000"%char)).

Definition plain_field (k : string) : bool :=
  match k with
  | EmptyString => false
  | String c _ => negb (bool_decide (c = "$"%char)) && string_forallb plain_char k
  end.

Definition plain_patch (patch : document) : Prop :=
  map_Forall (λ k _, plain_field k = true) patch.

Definition immutable_id_message : string :=
  "Performing an update on the path '_id' would modify the immutable field '_id'".

(** The document after [$set]: the fields of the patch replace or extend
    those of the document; [_id] may only be set to the value it has. *)
Definition apply_set (patch doc : document) : string + document :=
  match patch !! "_id" with
  | Some v =>
      if bool_decide (get doc "_id" = v) then inr (patch ∪ doc)
      else inl immutable_id_message
  | None => inr (patch ∪ doc)
  end.

Definition update_result (matched modified : Z) : value :=
  VObj (object [("acknowledged", VBool true); ("modifiedCount", VNum modified);
                ("upsertedId", VNull); ("upsertedCount", VNum 0);
                ("matchedCount", VNum matched)]).

(** [collection.updateOne(q, { $set: patch })]: the first matching document
    is updated in place, with the values of the patch as the store keeps
    them. *)
Definition updateOne (c : collection) (q : query) (patch : document)
  : M value := λ d,
  let docs := coll_get c d in
  if bool_decide (plain_patch patch) then
    match resolve q docs with
    | Some ts =>
        match list_find (holds ts) docs with
        | Some (i, doc) =>
            match apply_set (bson <$> patch) doc with
            | inr doc' =>
                Ret (update_result 1 (if bool_decide (doc' = doc) then 0 else 1))
                    (coll_set c (<[i := doc']> docs) d)
                    [OpUpdateOne c q patch]
            | inl msg => Throw msg d [OpUpdateOne c q patch]
            end
        | None => Ret (update_result 0 0) d [OpUpdateOne c q patch]
        end
    | None => Beyond
    end
  else Beyond.

Definition delete_result (deleted : Z) : value :=
  VObj (object [("acknowledged", VBool true); ("deletedCount", VNum deleted)]).

(** [collection.deleteOne(q)]: the first matching document is removed. *)
Definition deleteOne (c : collection) (q : query) : M value := λ d,
  let docs := coll_get c d in
  match resolve q docs with
  | Some ts =>
      match list_find (holds ts) docs with
      | Some (i, _) =>
          Ret (delete_result 1) (coll_set c (delete i docs) d) [OpDeleteOne c q]
      | None => Ret (delete_result 0) d [OpDeleteOne c q]
      end
  | None => Beyond
  end.

Definition lift {A} (r : string + A) : M A :=
  match r with inr a => ret_M a | inl msg => throw msg end.

(** [v.toString()] for an identifier or a string. *)
Definition toString (v : value) : M value :=
  match v with
  | VObjectId hex => ret_M (VStr hex)
  | VStr s => ret_M (VStr s)
  | VUndefined =>
      throw "Cannot read properties of undefined (reading 'toString')"
  | VNull => throw "Cannot read properties of null (reading 'toString')"
  | _ => λ _, Beyond
  end.

(** ** The route handlers *)

Section Handlers.

(** [bcrypt.hash(s, rounds)] on a string, given the random bytes of the
    salt, and [bcrypt.compare(s, hash)] on two strings, which answers or
    fails with a message. *)
Variable hash_string : string → nat → string → string.
Variable compare_strings : string → string → string + bool.
(** [String.prototype.toLowerCase]. *)
Variable String_toLowerCase : string → string.
(** The time value of [new Date(v)]; [None] is an invalid date. *)
Variable Date_new : value → option Z.

Definition bcrypt_hash (e : env) (s : value) (rounds : nat) : M value :=
  match s with
  | VStr p => ret_M (VStr (hash_string p rounds (env_salt e)))
  | _ => throw ("Illegal arguments: " +:+ typeof s +:+ ", number")
  end.

Definition bcrypt_compare (s h : value) : M bool :=
  match s, h with
  | VStr p, VStr h' => lift (compare_strings p h')
  | _, _ => throw ("Illegal arguments: " +:+ typeof s +:+ ", " +:+ typeof h)
  end.

(** [email.toLowerCase()]: only strings have the method. *)
Definition toLowerCase (v : value) : M value :=
  match v with
  | VStr s => ret_M (VStr (String_toLowerCase s))
  | VUndefined =>
      throw "Cannot read properties of undefined (reading 'toLowerCase')"
  | VNull => throw "Cannot read properties of null (reading 'toLowerCase')"
  | _ => throw "email.toLowerCase is not a function"
  end.

(** POST /signup *)
Definition signup_try (e : env) (body : document) : M response :=
  let name := get body "name" in
  let email := get body "email" in
  let username := get body "username" in
  let password := get body "password" in
  if negb (truthy name) || negb (truthy email) || negb (truthy username)
     || negb (truthy password)
  then send 400 (error_body "All fields are required")
  else
    existingUser ←' findOne Users [("email", CEq email)];
    match existingUser with
    | Some _ => send 409 (error_body "Email already registered")
    | None =>
        hashedPassword ←' bcrypt_hash e password 10;
        let newUser :=
          object [("name", name); ("email", email); ("username", username);
                  ("password", hashedPassword);
                  ("createdAt", VDate (Some (env_now e)))] in
        result ←' insertOne e Users newUser;
        send 200 (VObj (object [("success", VBool true);
                                ("message", VStr "User registered successfully");
                                ("userId", result.1)]))
    end.

Definition signup (e : env) (body : document) (d : db) : option reply :=
  try_catch (signup_try e body) d.

(** POST /login *)
Definition login_try (body : document) : M response :=
  let email := get body "email" in
  let password := get body "password" in
  if negb (truthy email) || negb (truthy password)
  then send 400 (error_body "Email and password required")
  else
    lowered ←' toLowerCase email;
    found ←' findOne Users [("email", CEq lowered)];
    match found with
    | None => send 401 (error_body "Invalid credentials")
    | Some user =>
        isMatch ←' bcrypt_compare password (get user "password");
        if negb isMatch
        then send 401 (error_body "Invalid credentials")
        else
          id ←' toString (get user "_id");
          send 200 (VObj (object
            [("success", VBool true);
             ("user", VObj (object [("id", id);
                                    ("name", get user "name");
                                    ("email", get user "email");
                                    ("username", get user "username")]))]))
    end.

Definition login (body : document) (d : db) : option reply :=
  try_catch (login_try body) d.

(** POST /google-signup *)
Definition googleSignup_try (e : env) (body : document) : M response :=
  let email := get body "email" in
  let name := get body "name" in
  let googleId := get body "googleId" in
  if negb (truthy email) || negb (truthy name) || negb (truthy googleId)
  then send 400 (error_body "Missing required fields")
  else
    found ←' findOne Users [("email", CEq email)];
    user ←' match found with
            | Some user => ret_M user
            | None =>
                let newUser :=
                  object [("name", name); ("email", email);
                          ("googleId", googleId);
                          ("createdAt", VDate (Some (env_now e)))] in
                result ←' insertOne e Users newUser;
                id ←' toString result.1;
                ret_M (<["id" := id]> result.2)
            end;
    send 200 (VObj (object [("success", VBool true); ("user", VObj user)])).

Definition googleSignup (e : env) (body : document) (d : db)
  : option reply :=
  try_catch (googleSignup_try e body) d.

(** GET /products, on the parsed query string [req.query] *)
Definition products_query (qs : document) : query :=
  let category := get qs "category" in
  let search := get qs "search" in
  (if truthy category then [("category", CEq category)] else []) ++
  (if truthy search then [("title", CRegex search "i")] else []).

Definition listProducts_try (qs : document) : M response :=
  found ←' find_toArray Products (products_query qs);
  send 200 (VArr (VObj <$> found)).

Definition listProducts (qs : document) (d : db) : option reply :=
  try_catch (listProducts_try qs) d.

(** GET /product/:id *)
Definition getProduct_try (id : string) : M response :=
  oid ←' lift (new_ObjectId id);
  product ←' findOne Products [("_id", CEq oid)];
  match product with
  | None => send 404 (error_body "Product not found")
  | Some p => send 200 (VObj p)
  end.

Definition getProduct (id : string) (d : db) : option reply :=
  try_catch (getProduct_try id) d.

(** POST /product *)
Definition createProduct_try (e : env) (body : document) : M response :=
  result ←' insertOne e Products body;
  send 200 (VObj (object [("acknowledged", VBool true);
                          ("insertedId", result.1)])).

Definition createProduct (e : env) (body : document) (d : db)
  : option reply :=
  try_catch (createProduct_try e body) d.

(** The request body after
    [if (updateData.released_date) updateData.released_date = new Date(...)]. *)
Definition coerce_released_date (body : document) : document :=
  if truthy (get body "released_date")
  then <["released_date" := VDate (Date_new (get body "released_date"))]> body
  else body.

(** PATCH /product/:id *)
Definition updateProduct_try (id : string) (body : document) : M response :=
  if negb (ObjectId_isValid id)
  then send 400 (error_body "Invalid product ID")
  else
    let updateData := coerce_released_date body in
    oid ←' lift (new_ObjectId id);
    result ←' updateOne Products [("_id", CEq oid)] updateData;
    send 200 result.

Definition updateProduct (id : string) (body : document) (d : db)
  : option reply :=
  try_catch (updateProduct_try id body) d.

(** DELETE /product/:id *)
Definition deleteProduct_try (id : string) : M response :=
  oid ←' lift (new_ObjectId id);
  result ←' deleteOne Products [("_id", CEq oid)];
  send 200 result.

Definition deleteProduct (id : string) (d : db) : option reply :=
  try_catch (deleteProduct_try id) d.

End Handlers.

(** ** Vocabulary of the statements *)

(** A document is selected by [{ k: v }]. *)
Definition field_is (k : string) (v : value) (doc : document) : Prop :=
  get doc k = v ∨ ∃ l, get doc k = VArr l ∧ v ∈ l.

(** [u] is the first document of [docs], in natural order, with [P]. *)
Definition first_match (P : document → Prop) (docs : list document)
    (u : document) : Prop :=
  ∃ i, docs !! i = Some u ∧ P u ∧
       ∀ j v, docs !! j = Some v → (j < i)%nat → ¬ P v.


(** A property of the object a response carries. *)
Definition body_field (r : response) (k : string) : value :=
  match body r with VObj o => get o k | _ => VUndefined end.

Definition invalid_credentials : response :=
  {| status := 401; body := error_body "Invalid credentials" |}.

Definition server_error (msg : string) (d : db) : reply :=
  {| resp := {| status := 500; body := error_body msg |};
     store := d; trace := [] |}.

(** The object [newUser] of the google-signup handler, before insertion. *)
Definition google_user (e : env) (reqBody : document) : document :=
  object [("name", get reqBody "name"); ("email", get reqBody "email");
          ("googleId", get reqBody "googleId");
          ("createdAt", VDate (Some (env_now e)))].

(** The reply of the google-signup handler that answers with [u] after a
    single lookup. *)
Definition google_reply (u : document) (d : db) (email : value) : reply :=
  {| resp := {| status := 200;
                body := VObj (object [("success", VBool true);
                                      ("user", VObj u)]) |};
     store := d;
     trace := [OpFindOne Users [("email", CEq email)]] |}.

(** [hay] contains [needle] as a substring, letter case apart. *)
Definition contains_ci (needle hay : string) : Prop :=
  ∃ pre post,
    string_map lower_ascii hay = pre +:+ string_map lower_ascii needle +:+ post.

(** A search text whose characters all stand for themselves in a pattern. *)
Definition literal_char (c : ascii) : bool := printable c && negb (is_meta c).

Definition literal_text (s : string) : Prop :=
  string_forallb literal_char s = true.

(** The pattern that [parse_pattern] builds from a literal text. *)
Fixpoint literals (s : string) : list item :=
  match s with
  | EmptyString => []
  | String c s' => Lit c :: literals s'
  end.

Definition printable_text (v : value) : Prop :=
  match v with
  | VStr t => string_forallb printable t = true
  | _ => True
  end.

(** The title of a document can be searched within the fragment. *)
Definition title_in_fragment (doc : document) : Prop :=
  match get doc "title" with
  | VArr l => Forall printable_text l
  | v => printable_text v
  end.

(** The title field contains the text, or is an array with such an
    element. *)
Definition title_has (s : string) (fv : value) : Prop :=
  (∃ t, fv = VStr t ∧ contains_ci s t) ∨
  (∃ l t, fv = VArr l ∧ VStr t ∈ l ∧ contains_ci s t).

Definition category_selected (qs doc : document) : Prop :=
  truthy (get qs "category") = false ∨
  field_is "category" (get qs "category") doc.

Definition title_selected (qs doc : document) : Prop :=
  truthy (get qs "search") = false ∨
  ∃ s, get qs "search" = VStr s ∧ title_has s (get doc "title").

(** The object [newUser] of the signup handler, before insertion. *)
Definition signup_user (e : env) (name email username hashed : value)
  : document :=
  object [("name", name); ("email", email); ("username", username);
          ("password", hashed); ("createdAt", VDate (Some (env_now e)))].

(** The tests that the query of [listProducts] compiles to. *)
Definition products_tests (qs : document) : list (string * test) :=
  (if truthy (get qs "category")
   then [("category", TEq (get qs "category"))] else []) ++
  (if truthy (get qs "search")
   then match get qs "search" with
        | VStr s => [("title", TRegexI (literals s))]
        | _ => []
        end
   else []).

(** ** Two readings of the specification, as it words them *)

(** [listProducts] returns exactly the documents whose category equals the
    parameter and whose title contains the search text. *)
Definition listProducts_substring_reading (qs : document) (d : db) : Prop :=
  ∃ r docs,
    listProducts qs d = Some r ∧
    body (resp r) = VArr (VObj <$> docs) ∧
    ∀ doc, doc ∈ docs ↔
      doc ∈ products d ∧
      (get qs "category" = VUndefined ∨
       get doc "category" = get qs "category") ∧
      (get qs "search" = VUndefined ∨
       ∃ s t, get qs "search" = VStr s ∧ get doc "title" = VStr t ∧
              contains_ci s t).

(** [updateProduct] merges every key of the patch into the matched
    document and leaves its other fields alone. *)
Definition updateProduct_merge_reading (Date_new : value → option Z)
    (id : string) (reqBody : document) (d : db) : Prop :=
  ∀ oid doc,
    new_ObjectId id = inr oid →
    first_match (field_is "_id" oid) (products d) doc →
    ∃ r doc',
      updateProduct Date_new id reqBody d = Some r ∧
      first_match (field_is "_id" oid) (products (store r)) doc' ∧
      (∀ k, reqBody !! k = None → doc' !! k = doc !! k) ∧
      (∀ k v, coerce_released_date Date_new reqBody !! k = Some v →
              doc' !! k = Some v).

(** ** Sample data

    Stand-ins for the library functions and a few requests and database
    states, on which the statements below are instantiated. *)

Module Sample.

Definition hash_string (p : string) (rounds : nat) (salt : string) : string :=
  "$2a$10$" +:+ salt +:+ p.

Definition compare_strings (p h : string) : string + bool :=
  inr (bool_decide (h = hash_string p 10 "N9qo8uLOickgx2ZMRZoMye")).

Definition String_toLowerCase (s : string) : string :=
  string_map lower_ascii s.

Definition Date_new (v : value) : option Z :=
  match v with
  | VNum n => Some n
  | VStr s => if bool_decide (s = "2024-01-15") then Some 1705276800000 else None
  | _ => None
  end.

Definition e1 : env :=
  {| env_oid := "65f1a2b3c4d5e6f708192a3b"; env_now := 1710000000000;
     env_salt := "N9qo8uLOickgx2ZMRZoMye" |}.

Definition e2 : env :=
  {| env_oid := "65f1a2b3c4d5e6f708192a3c"; env_now := 1710000060000;
     env_salt := "Xk3pLmQ9rT2vW8yZ1aB4cD" |}.

(** A user created by password signup. *)
Definition ann : document :=
  object [("_id", VObjectId "65f1a2b3c4d5e6f708192a00");
          ("name", VStr "Ann"); ("email", VStr "ann@example.com");
          ("username", VStr "ann");
          ("password", VStr (hash_string "s3cret" 10 "N9qo8uLOickgx2ZMRZoMye"));
          ("createdAt", VDate (Some 1700000000000))].

Definition db_ann : db := {| users := [ann]; products := [] |}.

Definition signup_bob : document :=
  object [("name", VStr "Bob"); ("email", VStr "Bob@Example.com");
          ("username", VStr "bob"); ("password", VStr "hunter2")].

Definition signup_ann_again : document :=
  object [("name", VStr "Ann B."); ("email", VStr "ann@example.com");
          ("username", VStr "annb"); ("password", VStr "pa55word")].

Definition login_unknown : document :=
  object [("email", VStr "Carol@Example.com"); ("password", VStr "whatever")].

Definition login_ann_wrong : document :=
  object [("email", VStr "Ann@Example.com"); ("password", VStr "guess")].

Definition login_ann : document :=
  object [("email", VStr "Ann@Example.com"); ("password", VStr "s3cret")].

Definition google_ann : document :=
  object [("email", VStr "ann@example.com"); ("name", VStr "Ann");
          ("googleId", VStr "108234567890123456789")].

Definition google_dan : document :=
  object [("email", VStr "dan@example.com"); ("name", VStr "Dan");
          ("googleId", VStr "117000000000000000001")].

Definition mouse_id : string := "65f1a2b3c4d5e6f708192b01".

Definition mouse : document :=
  object [("_id", VObjectId mouse_id); ("title", VStr "Mouse");
          ("category", VStr "Accessory"); ("price", VNum 25)].

Definition laptop : document :=
  object [("_id", VObjectId "65f1a2b3c4d5e6f708192b02");
          ("title", VStr "Gaming Laptop"); ("category", VStr "Laptop");
          ("price", VNum 1500)].

Definition db_shop : db := {| users := [ann]; products := [mouse; laptop] |}.

Definition query_laptop : document :=
  object [("category", VStr "Laptop"); ("search", VStr "LAP")].

Definition query_dot : document := object [("search", VStr ".")].

Definition patch_price : document :=
  object [("price", VNum 19); ("released_date", VStr "2024-01-15")].


End Sample.

(** Closes a goal on sample data by evaluation. *)
Ltac sample := first [ done | by vm_compute ].

(** ** Vocabulary of the further statements *)

(** The identifiers and the emails of the documents of a collection. *)
Definition ids (docs : list document) : list value :=
  (λ x, get x "_id") <$> docs.

Definition emails (docs : list document) : list value :=
  (λ x, get x "email") <$> docs.

(** A response other than a 200 carries [{ error: message }]. *)
Definition error_shaped (r : response) : Prop :=
  status r = 200%nat ∨ ∃ msg, body r = error_body msg.

(** One of the required fields of a request is missing or falsy. *)
Definition lacks (reqBody : document) (fields : list string) : Prop :=
  Exists (λ k, truthy (get reqBody k) = false) fields.


(** The [_id] of the document is an [ObjectId]. *)
Definition has_object_id (doc : document) : Prop :=
  ∃ s, get doc "_id" = VObjectId s.

(** ** A signup that is suspended at its lookup

    The signup handler gives up control at each [await].  Once
    [await userCollection.findOne({ email })] has answered [existingUser],
    the handler continues as below, on the database as it is by then; a
    signup that runs alone is the presence check, the lookup and this
    continuation (lemma [signup_try_resume]). *)
Definition signup_resume (hash_string : string → nat → string → string)
    (e : env) (body : document) (existingUser : option document)
  : M response :=
  let name := get body "name" in
  let email := get body "email" in
  let username := get body "username" in
  let password := get body "password" in
  match existingUser with
  | Some _ => send 409 (error_body "Email already registered")
  | None =>
      hashedPassword ←' bcrypt_hash hash_string e password 10;
      let newUser :=
        object [("name", name); ("email", email); ("username", username);
                ("password", hashedPassword);
                ("createdAt", VDate (Some (env_now e)))] in
      result ←' insertOne e Users newUser;
      send 200 (VObj (object [("success", VBool true);
                              ("message", VStr "User registered successfully");
                              ("userId", result.1)]))
  end.

(** ** Further sample requests *)

Module Cases.

Definition signup_no_email : document :=
  object [("name", VStr "Eve"); ("username", VStr "eve");
          ("password", VStr "pa55word")].

Definition signup_numeric_password : document :=
  object [("name", VStr "Eve"); ("email", VStr "eve@example.com");
          ("username", VStr "eve"); ("password", VNum 123456)].

Definition login_array_email : document :=
  object [("email", VArr [VStr "ann@example.com"]);
          ("password", VStr "s3cret")].

Definition signup_carl : document :=
  object [("name", VStr "Carl"); ("email", VStr "carl@example.com");
          ("username", VStr "carl"); ("password", VStr "tr0ub4dor")].

(** A second registration for Bob's email, from another client. *)
Definition signup_bob_again : document :=
  object [("name", VStr "Robert"); ("email", VStr "Bob@Example.com");
          ("username", VStr "rob"); ("password", VStr "correct horse")].

Definition login_carl : document :=
  object [("email", VStr "carl@example.com"); ("password", VStr "tr0ub4dor")].

Definition login_bob : document :=
  object [("email", VStr "Bob@Example.com"); ("password", VStr "hunter2")].

Definition login_dan : document :=
  object [("email", VStr "dan@example.com"); ("password", VStr "anything")].

Definition absent_id : string := "65f1a2b3c4d5e6f708192bff".

Definition keyboard : document :=
  object [("title", VStr "Keyboard"); ("category", VStr "Accessory");
          ("price", VNum 45)].

Definition e3 : env :=
  {| env_oid := "65f1a2b3c4d5e6f708192b03"; env_now := 1710000120000;
     env_salt := "Q7wErTyUiOpAsDfGhJkLzX" |}.

(** A patch whose [released_date] is not the text of a date. *)
Definition patch_invalid_date : document :=
  object [("price", VNum 19); ("released_date", VStr "garbage")].

(** A search text that opens a group and never closes it. *)
Definition query_unclosed : document :=
  object [("category", VStr "Laptop"); ("search", VStr "lap(")].

(** A product body that brings its own [_id]. *)
Definition usb_hub : document :=
  object [("_id", VStr "usb-hub"); ("title", VStr "USB hub");
          ("price", VNum 15)].

End Cases.

(** * Properties of the model *)

(** ** The definitions on small inputs *)

Example truthy_values :
  truthy (VStr "") = false ∧ truthy (VStr "0") = true ∧
  truthy (VNum 0) = false ∧ truthy VUndefined = false ∧
  truthy (VArr []) = true.
Proof. done. Qed.

Example isValid_values :
  ObjectId_isValid "65f1a2b3c4d5e6f708192a3b" = true ∧
  ObjectId_isValid "65F1A2B3C4D5E6F708192A3B" = true ∧
  ObjectId_isValid "65f1a2b3c4d5e6f708192a3" = false ∧
  ObjectId_isValid "65f1a2b3c4d5e6f708192a3g" = false ∧
  ObjectId_isValid "" = false.
Proof. done. Qed.

Example new_ObjectId_folds_case :
  new_ObjectId "65F1A2B3C4D5E6F708192A3B" =
  inr (VObjectId "65f1a2b3c4d5e6f708192a3b").
Proof. done. Qed.

Example parse_pattern_values :
  parse_pattern "a.c" = Some [Lit "a"%char; AnyChar; Lit "c"%char] ∧
  parse_pattern "a(b" = None ∧
  parse_pattern "c++" = None.
Proof. done. Qed.

Example search_values :
  search (literals "LAP") "Gaming Laptop" = true ∧
  search (literals "lap") "Mouse" = false ∧
  search [Lit "m"%char; AnyChar; Lit "u"%char] "A Mouse" = true ∧
  search [AnyChar] "" = false.
Proof. done. Qed.

Example plain_field_values :
  plain_field "price" = true ∧ plain_field "_id" = true ∧
  plain_field "specs.ram" = false ∧ plain_field "$inc" = false ∧
  plain_field "" = false.
Proof. done. Qed.

Example eq_match_values :
  eq_match (VStr "Laptop") (VStr "Laptop") = true ∧
  eq_match (VStr "Laptop") (VStr "laptop") = false ∧
  eq_match (VStr "Laptop") (VArr [VStr "Gaming"; VStr "Laptop"]) = true ∧
  eq_match (VStr "Laptop") VUndefined = false.
Proof. done. Qed.

(** ** Strings *)

Lemma append_String c s p : String c s +:+ p = String c (s +:+ p).
Proof. done. Qed.

Lemma append_empty p : "" +:+ p = p.
Proof. done. Qed.

(** A text without the character [c] has no infix that starts with [c]. *)
Lemma absent_char_not_infix c t pre post :
  string_forallb (λ a, negb (bool_decide (a = c))) t = true →
  t ≠ pre +:+ String c post.
Proof.
  revert t. induction pre as [|a pre IH]; intros [|b t]; cbn; try done.
  - rewrite append_empty. intros [Hb _]%andb_true_iff [= -> _].
    by rewrite bool_decide_eq_true_2 in Hb.
  - rewrite append_String. intros [_ Ht]%andb_true_iff [= _ Heq].
    by eapply IH.
Qed.

Lemma truthy_str s : s ≠ "" → truthy (VStr s) = true.
Proof. intros. cbn. by rewrite bool_decide_eq_false_2. Qed.

(** ** Queries on one field *)

Lemma eq_match_spec q fv :
  eq_match q fv = true ↔ fv = q ∨ ∃ l, fv = VArr l ∧ q ∈ l.
Proof.
  unfold eq_match. rewrite orb_true_iff, bool_decide_eq_true. split.
  - intros [H|H]; [by left|]. destruct fv; try done.
    apply bool_decide_eq_true in H. right. eauto.
  - intros [H|(l & -> & H)]; [by left|]. right. by apply bool_decide_eq_true.
Qed.

Lemma sat_nil doc : sat [] doc = Some true.
Proof. done. Qed.

Lemma sat_cons k t ts doc :
  sat ((k, t) :: ts) doc =
  match run_test t (get doc k), sat ts doc with
  | Some b, Some bs => Some (b && bs)
  | _, _ => None
  end.
Proof.
  unfold sat. cbn. destruct (run_test t (get doc k)); [|done]. cbn.
  by destruct (mapM _ ts).
Qed.

Lemma sat_eq k q doc : sat [(k, TEq q)] doc = Some (eq_match q (get doc k)).
Proof. rewrite sat_cons, sat_nil. cbn. by rewrite andb_true_r. Qed.

Lemma holds_eq k q doc : holds [(k, TEq q)] doc ↔ field_is k q doc.
Proof.
  unfold holds, field_is. rewrite sat_eq, <- eq_match_spec.
  split; [by intros [= ->] | by intros ->].
Qed.

Lemma resolve_eq k q docs :
  compile (CEq q) = Some (TEq q) →
  resolve [(k, CEq q)] docs = Some [(k, TEq q)].
Proof.
  intros Hc. unfold resolve. cbn [mapM fst snd]. rewrite Hc. cbn.
  rewrite bool_decide_eq_true_2; [done|].
  apply Forall_forall. intros doc _. eauto.
Qed.

(** ** First matches *)

Lemma list_find_first (P : document → Prop) `{!∀ x, Decision (P x)}
    (Q : document → Prop) docs u :
  (∀ x, P x ↔ Q x) → first_match Q docs u →
  ∃ i, docs !! i = Some u ∧ list_find P docs = Some (i, u).
Proof.
  intros HPQ (i & Hi & Hu & Hlt). exists i. split; [done|].
  apply list_find_Some. split_and!; [done|by apply HPQ|].
  intros j v Hj Hji HP. by eapply Hlt, HPQ.
Qed.

Lemma list_find_nothing (P : document → Prop) `{!∀ x, Decision (P x)}
    (Q : document → Prop) docs :
  (∀ x, P x ↔ Q x) → (∀ u, u ∈ docs → ¬ Q u) → list_find P docs = None.
Proof.
  intros HPQ Hno. apply list_find_None, Forall_forall.
  intros x Hx HP. by eapply Hno, HPQ.
Qed.

(** Where some document passes the test, there is a first one. *)
Lemma first_match_exists (P : document → Prop) `{!∀ x, Decision (P x)}
    (Q : document → Prop) docs :
  (∀ x, P x ↔ Q x) → (∃ u, u ∈ docs ∧ Q u) → ∃ u, first_match Q docs u.
Proof.
  intros HPQ (u & Hin & HQ). apply HPQ in HQ.
  destruct (list_find_elem_of P docs u Hin HQ) as [[i v] Hf].
  apply list_find_Some in Hf as (? & ? & Hlt). exists v, i.
  split_and!; [done|by apply HPQ|]. intros j w ? ? ?%HPQ. by eapply Hlt.
Qed.

Lemma field_first_exists k q docs :
  (∃ u, u ∈ docs ∧ field_is k q u) → ∃ u, first_match (field_is k q) docs u.
Proof. apply (first_match_exists _ _ _ (holds_eq k q)). Qed.

Lemma first_match_appended (P : document → Prop) docs u :
  (∀ v, v ∈ docs → ¬ P v) → P u → first_match P (docs ++ [u]) u.
Proof.
  intros Hnone Hu. exists (length docs). split_and!.
  - by rewrite lookup_app_r, Nat.sub_diag.
  - done.
  - intros j v Hj Hlt. apply Hnone. rewrite lookup_app_l in Hj by done.
    by eapply list_elem_of_lookup_2.
Qed.

Lemma first_match_unique (P : document → Prop) docs u v :
  first_match P docs u → first_match P docs v → u = v.
Proof.
  intros (i & Hi & Hu & Hlt) (j & Hj & Hv & Hlt').
  destruct (Nat.lt_trichotomy i j) as [?|[->|?]].
  - by destruct (Hlt' i u).
  - congruence.
  - by destruct (Hlt j v).
Qed.

Lemma first_match_head (P : document → Prop) u docs :
  P u → first_match P (u :: docs) u.
Proof. intros Hu. exists 0%nat. split_and!; [done..|]. intros j v _ ?. lia. Qed.

(** ** Store operations *)

Lemma findOne_first c k q d u :
  compile (CEq q) = Some (TEq q) →
  first_match (field_is k q) (coll_get c d) u →
  findOne c [(k, CEq q)] d = Ret (Some u) d [OpFindOne c [(k, CEq q)]].
Proof.
  intros Hc Hu. unfold findOne. rewrite resolve_eq by done.
  destruct (list_find_first _ _ _ _ (holds_eq k q) Hu) as (i & _ & ->). done.
Qed.

Lemma findOne_nothing c k q d :
  compile (CEq q) = Some (TEq q) →
  (∀ u, u ∈ coll_get c d → ¬ field_is k q u) →
  findOne c [(k, CEq q)] d = Ret None d [OpFindOne c [(k, CEq q)]].
Proof.
  intros Hc Hu. unfold findOne. rewrite resolve_eq by done.
  by rewrite (list_find_nothing _ _ _ (holds_eq k q) Hu).
Qed.

(** What a completed [findOne] on one field tells. *)
Lemma findOne_inv c k q d o d' ops :
  findOne c [(k, CEq q)] d = Ret o d' ops →
  d' = d ∧ ops = [OpFindOne c [(k, CEq q)]] ∧
  match o with
  | Some u => first_match (field_is k q) (coll_get c d) u
  | None => ∀ u, u ∈ coll_get c d → ¬ field_is k q u
  end.
Proof.
  unfold findOne. destruct (resolve _ _) as [ts|] eqn:Hr; [|done].
  intros [= <- <- <-]. split_and!; [done..|].
  assert (ts = [(k, TEq q)]) as ->.
  { unfold resolve in Hr. cbn [mapM fst snd] in Hr.
    destruct q; simplify_eq/=; by case_bool_decide; simplify_eq/=. }
  destruct (list_find _ _) as [[i u]|] eqn:Hf; cbn.
  - apply list_find_Some in Hf as (? & ?%holds_eq & Hlt). exists i.
    split_and!; [done..|]. intros j v ? ? ?%holds_eq. by eapply Hlt.
  - intros u Hu ?%holds_eq. eapply list_find_None, Forall_forall in Hf; eauto.
Qed.

Lemma findOne_throw c q d msg d' ops : findOne c q d ≠ Throw msg d' ops.
Proof. unfold findOne. by destruct (resolve _ _). Qed.

Lemma insertOne_fresh e c doc d :
  doc !! "_id" = None →
  (∀ u, u ∈ coll_get c d → get u "_id" ≠ VObjectId (env_oid e)) →
  insertOne e c doc d =
    Ret (VObjectId (env_oid e), <["_id" := VObjectId (env_oid e)]> doc)
        (coll_set c (coll_get c d ++ [<["_id" := VObjectId (env_oid e)]> doc]) d)
        [OpInsertOne c doc].
Proof.
  intros Hid Hfresh. unfold insertOne. rewrite Hid.
  rewrite bool_decide_eq_false_2; [done|].
  rewrite Exists_exists. intros (u & Hu & Heq). by eapply Hfresh.
Qed.

(** ** Regular expressions on literal texts *)

Lemma parse_literal s :
  literal_text s → parse_pattern s = Some (literals s).
Proof.
  unfold literal_text. induction s as [|c s IH]; [done|]. cbn.
  intros [Hc Hs]%andb_true_iff. rewrite (IH Hs).
  unfold parse_item. case_bool_decide as Hdot; [by subst c|].
  unfold literal_char in Hc. by rewrite Hc.
Qed.

(** A literal pattern matches at the start of a subject exactly when the
    subject begins with the text, letter case apart. *)
Lemma match_here_literals s t :
  match_here (literals s) t = true ↔
  ∃ post, string_map lower_ascii t = string_map lower_ascii s +:+ post.
Proof.
  revert t. induction s as [|c s IH]; intros t; cbn.
  - split; [eauto|done].
  - destruct t as [|a t]; cbn.
    + split; [done|]. by intros [post ?].
    + rewrite andb_true_iff, bool_decide_eq_true, IH. split.
      * intros [Hc [post Hpost]]. exists post.
        by rewrite append_String, Hc, Hpost.
      * intros [post Hpost]. rewrite append_String in Hpost.
        simplify_eq. eauto.
Qed.

(** Searching a literal pattern is the case-insensitive substring test. *)
Lemma search_literals s t :
  search (literals s) t = true ↔ contains_ci s t.
Proof.
  unfold contains_ci. induction t as [|a t IH]; cbn.
  - rewrite orb_false_r, match_here_literals. split.
    + intros [post Hpost]. by exists "", post.
    + intros ([|??] & post & Hpost); [by exists post|done].
  - rewrite orb_true_iff, IH, match_here_literals. split.
    + intros [[post Hpost]|(pre & post & Hpost)].
      * by exists "", post.
      * exists (String (lower_ascii a) pre), post.
        by rewrite append_String, Hpost.
    + intros ([|c pre] & post & Hpost).
      * left. by exists post.
      * right. rewrite append_String in Hpost. simplify_eq. eauto.
Qed.

Lemma regex_value_literals s v :
  printable_text v →
  ∃ hit, regex_value (literals s) v = Some hit ∧
         (hit = true ↔ ∃ t, v = VStr t ∧ contains_ci s t).
Proof.
  destruct v; cbn; intros Hv;
    try (exists false; split; [done|]; split; [done|by intros (? & ? & ?)]).
  rewrite Hv. eexists. split; [done|]. rewrite search_literals.
  split; [eauto|]. by intros (? & [= <-] & ?).
Qed.

Lemma regex_array_literals s l :
  Forall printable_text l →
  ∃ hit, existsb id <$> mapM (regex_value (literals s)) l = Some hit ∧
         (hit = true ↔ ∃ t, VStr t ∈ l ∧ contains_ci s t).
Proof.
  induction 1 as [|v l Hv Hl (hit & Hhit & IH)].
  - exists false. split; [done|]. split; [done|].
    intros (t & Ht & _). by apply elem_of_nil in Ht.
  - destruct (regex_value_literals s v Hv) as (hv & Hhv & Hiff).
    exists (hv || hit). cbn. rewrite Hhv. cbn.
    destruct (mapM _ l) as [hits|]; [|done]. cbn in *. simplify_eq.
    split; [done|]. rewrite orb_true_iff, Hiff, IH. split.
    + intros [(t & Hv' & ?)|(t & ? & ?)]; exists t;
        (split; [|done]); apply elem_of_cons; eauto.
    + intros (t & Hin & ?). apply elem_of_cons in Hin as [Heq|Hin]; eauto.
Qed.

Lemma regex_test_literals s doc :
  title_in_fragment doc →
  ∃ hit, regex_test (literals s) (get doc "title") = Some hit ∧
         (hit = true ↔ title_has s (get doc "title")).
Proof.
  unfold title_in_fragment, title_has.
  destruct (get doc "title") as [| | | |t| | |l|] eqn:Ht; intros Hfrag.
  8: { destruct (regex_array_literals s l Hfrag) as (hit & Hhit & Hiff).
       exists hit. split; [done|]. rewrite Hiff. split.
       - intros (t & ? & ?). right. eauto.
       - intros [(? & ? & ?)|(? & t & [= <-] & ? & ?)]; [done|eauto]. }
  all: destruct (regex_value_literals s _ Hfrag) as (hit & Hhit & Hiff);
    exists hit; (split; [done|]); rewrite Hiff; split;
    [ intros (t' & ? & ?); left; eauto
    | intros [(? & ? & ?)|(? & ? & ? & ? & ?)]; [eauto|done] ].
Qed.

(** ** The query of [listProducts] *)

Lemma filter_all (P : document → Prop) `{!∀ x, Decision (P x)}
    (docs : list document) :
  (∀ doc, doc ∈ docs → P doc) → filter P docs = docs.
Proof.
  induction docs as [|doc docs IH]; intros Hall; [done|].
  rewrite filter_cons, decide_True by (apply Hall; left).
  f_equal. apply IH. intros ??. apply Hall. by right.
Qed.

(** A pattern that the store refuses is outside the fragment that is
    searched, and a query within the fragment is not refused. *)
Lemma unclosed_group_not_parsed p :
  unclosed_group p = true → parse_pattern p = None.
Proof.
  induction p as [|c p IH]; [done|]. cbn [unclosed_group parse_pattern].
  case_bool_decide as Hc.
  - intros _. subst c. done.
  - intros [_ Hp]%andb_true_iff. rewrite (IH Hp).
    by destruct (parse_item c).
Qed.

Lemma refused_not_compiled c : refused c = true → compile c = None.
Proof.
  destruct c as [v|[]o]; try done. cbn.
  intros [-> Hp]%andb_true_iff. by rewrite (unclosed_group_not_parsed _ Hp).
Qed.

Lemma compiled_not_refused (q : query) ts :
  mapM (λ kc : string * cond, pair kc.1 <$> compile kc.2) q = Some ts →
  query_refused q = false.
Proof.
  intros Hq. unfold query_refused. apply andb_false_iff. left.
  apply not_true_is_false. intros (kc & Hkc & Hr)%existsb_exists.
  apply refused_not_compiled in Hr.
  apply list_elem_of_In, list_elem_of_lookup_1 in Hkc as [i Hi].
  apply mapM_Some in Hq.
  destruct (Forall2_lookup_l _ _ _ _ _ Hq Hi) as (t & _ & Ht).
  rewrite Hr in Ht. done.
Qed.

Section ListProducts.

Variable qs : document.
Hypothesis category_string :
  get qs "category" = VUndefined ∨ ∃ c, get qs "category" = VStr c.
Hypothesis search_literal :
  get qs "search" = VUndefined ∨
  ∃ s, get qs "search" = VStr s ∧ literal_text s.

Lemma products_query_compiles :
  mapM (λ kc : string * cond, pair kc.1 <$> compile kc.2) (products_query qs)
  = Some (products_tests qs).
Proof.
  unfold products_query, products_tests.
  destruct category_string as [->|[c ->]];
    destruct search_literal as [->|(s & -> & Hs)]; cbn;
    repeat case_bool_decide; cbn; rewrite ?parse_literal by done; done.
Qed.

Lemma products_tests_sat doc :
  (truthy (get qs "search") = true → title_in_fragment doc) →
  ∃ hit, sat (products_tests qs) doc = Some hit ∧
         (hit = true ↔ category_selected qs doc ∧ title_selected qs doc).
Proof.
  unfold products_tests, category_selected, title_selected. intros Hfrag.
  destruct (truthy (get qs "category")) eqn:Hc;
    destruct (truthy (get qs "search")) eqn:Hs; cbn [app].
  - destruct search_literal as [Hu|(s & Hsearch & Hlit)];
      [by rewrite Hu in Hs|].
    rewrite Hsearch, !sat_cons, sat_nil. cbn [run_test].
    destruct (regex_test_literals s doc (Hfrag eq_refl)) as (hit & -> & Hhit).
    eexists. split; [done|].
    rewrite andb_true_r, andb_true_iff, eq_match_spec, Hhit.
    unfold field_is. split.
    + intros [? ?]. split; right; eauto.
    + intros [[?|?] [?|(s' & [= <-] & ?)]]; done.
  - rewrite sat_cons, sat_nil. cbn [run_test]. eexists. split; [done|].
    rewrite andb_true_r, eq_match_spec. unfold field_is. split.
    + intros ?. split; [by right|by left].
    + by intros [[?|?] _].
  - destruct search_literal as [Hu|(s & Hsearch & Hlit)];
      [by rewrite Hu in Hs|].
    rewrite Hsearch, sat_cons, sat_nil. cbn [run_test].
    destruct (regex_test_literals s doc (Hfrag eq_refl)) as (hit & -> & Hhit).
    eexists. split; [done|]. rewrite andb_true_r, Hhit. split.
    + intros ?. split; [by left|right; eauto].
    + by intros [_ [?|(s' & [= <-] & ?)]].
  - exists true. split; [done|]. split; [|done]. intros _. split; by left.
Qed.

End ListProducts.

(** * The account routes *)

Section Account.

Variable hash_string : string → nat → string → string.
Variable compare_strings : string → string → string + bool.
Variable String_toLowerCase : string → string.

(** A signup whose email is not taken stores one document and answers with
    its identifier. *)
Lemma signup_new e reqBody d name email username password :
  get reqBody "name" = VStr name → get reqBody "email" = VStr email →
  get reqBody "username" = VStr username →
  get reqBody "password" = VStr password →
  name ≠ "" → email ≠ "" → username ≠ "" → password ≠ "" →
  (∀ u, u ∈ users d → ¬ field_is "email" (VStr email) u) →
  (∀ u, u ∈ users d → get u "_id" ≠ VObjectId (env_oid e)) →
  let newUser := signup_user e (VStr name) (VStr email) (VStr username)
                   (VStr (hash_string password 10 (env_salt e))) in
  signup hash_string e reqBody d =
    Some {| resp := {| status := 200;
                       body := VObj (object
                         [("success", VBool true);
                          ("message", VStr "User registered successfully");
                          ("userId", VObjectId (env_oid e))]) |};
            store := {| users := users d ++
                          [<["_id" := VObjectId (env_oid e)]> newUser];
                        products := products d |};
            trace := [OpFindOne Users [("email", CEq (VStr email))];
                      OpInsertOne Users newUser] |}.
Proof.
  intros Hn He Hu Hp ? ? ? ? Hnone Hfresh newUser.
  unfold signup, try_catch, signup_try.
  rewrite Hn, He, Hu, Hp, !truthy_str by done.
  cbn [negb orb]. unfold bind_M.
  rewrite (findOne_nothing Users "email" (VStr email) d) by done.
  cbn [bcrypt_hash ret_M]. fold newUser.
  rewrite insertOne_fresh; [done|done|done].
Qed.

(** C1.  A signup request whose four fields are non-empty strings and whose
    email matches no stored user inserts exactly one user document: it
    carries the given name, email and username, the bcrypt hash of the
    password computed with cost factor 10 and the salt drawn for the
    request, and the creation time read from the server clock; the response
    is a success that carries the identifier of the new document.  The
    password itself is in no field other than name, email and username (where
    the request may repeat it), as long as bcrypt's output differs from its
    input. *)
Theorem signup_creates_user e reqBody d name email username password :
  get reqBody "name" = VStr name → get reqBody "email" = VStr email →
  get reqBody "username" = VStr username →
  get reqBody "password" = VStr password →
  name ≠ "" → email ≠ "" → username ≠ "" → password ≠ "" →
  (∀ u, u ∈ users d → ¬ field_is "email" (VStr email) u) →
  (∀ u, u ∈ users d → get u "_id" ≠ VObjectId (env_oid e)) →
  ∃ r stored,
    signup hash_string e reqBody d = Some r ∧
    status (resp r) = 200%nat ∧
    body_field (resp r) "success" = VBool true ∧
    body_field (resp r) "userId" = get stored "_id" ∧
    store r = {| users := users d ++ [stored]; products := products d |} ∧
    trace r = [OpFindOne Users [("email", CEq (VStr email))];
               OpInsertOne Users (delete "_id" stored)] ∧
    stored = object [("_id", VObjectId (env_oid e));
                     ("name", VStr name); ("email", VStr email);
                     ("username", VStr username);
                     ("password", VStr (hash_string password 10 (env_salt e)));
                     ("createdAt", VDate (Some (env_now e)))] ∧
    (hash_string password 10 (env_salt e) ≠ password →
     ∀ k, k ≠ "name" → k ≠ "email" → k ≠ "username" →
          get stored k ≠ VStr password).
Proof.
  intros Hn He Hu Hp ? ? ? ? Hnone Hfresh. do 2 eexists.
  split; [by apply (signup_new e reqBody d name email username password)|].
  cbn [resp store trace status]. split_and!; try done.
  { unfold get. by rewrite lookup_insert_eq. }
  intros Hhash k ? ? ?. unfold get, signup_user, object. cbn [list_to_map foldr].
  repeat (rewrite lookup_insert; case_decide; simplify_eq/=; try done).
  congruence.
Qed.

(** C2.  A signup request whose email is the email of a stored user is
    answered with status 409 and the database is left as it was: the only
    store operation is the lookup. *)
Theorem signup_conflict e reqBody d email :
  get reqBody "email" = VStr email → email ≠ "" →
  truthy (get reqBody "name") = true →
  truthy (get reqBody "username") = true →
  truthy (get reqBody "password") = true →
  (∃ u, u ∈ users d ∧ get u "email" = VStr email) →
  signup hash_string e reqBody d =
    Some {| resp := {| status := 409;
                       body := error_body "Email already registered" |};
            store := d;
            trace := [OpFindOne Users [("email", CEq (VStr email))]] |}.
Proof.
  intros He Hne Hn Hu Hp Hex.
  destruct (field_first_exists "email" (VStr email) (users d)) as [u Hfirst].
  { destruct Hex as (u & ? & ?). exists u. split; [done|by left]. }
  unfold signup, try_catch, signup_try.
  rewrite He, Hn, Hu, Hp, truthy_str by done.
  cbn [negb orb]. unfold bind_M.
  by rewrite (findOne_first Users "email" (VStr email) d u).
Qed.

(** C3.  Two login requests, one whose lower-cased email matches no stored
    user and one whose lower-cased email selects a stored user whose
    password hash the supplied password does not match, receive the same
    response: status 401 with the body [{ error: "Invalid credentials" }].
    Neither changes the database. *)
Theorem login_failures_indistinguishable
    reqBody1 reqBody2 d email1 email2 password2 u h :
  get reqBody1 "email" = VStr email1 → email1 ≠ "" →
  truthy (get reqBody1 "password") = true →
  (∀ v, v ∈ users d →
        ¬ field_is "email" (VStr (String_toLowerCase email1)) v) →
  get reqBody2 "email" = VStr email2 → email2 ≠ "" →
  get reqBody2 "password" = VStr password2 → password2 ≠ "" →
  first_match (field_is "email" (VStr (String_toLowerCase email2)))
    (users d) u →
  get u "password" = VStr h →
  compare_strings password2 h = inr false →
  ∃ r1 r2,
    login compare_strings String_toLowerCase reqBody1 d = Some r1 ∧
    login compare_strings String_toLowerCase reqBody2 d = Some r2 ∧
    resp r1 = resp r2 ∧
    resp r1 = invalid_credentials ∧
    store r1 = d ∧ store r2 = d.
Proof.
  intros He1 ? Hp1 Hnone He2 ? Hp2 ? Hfirst Hh Hcmp.
  unfold login, try_catch, login_try.
  rewrite He1, He2, Hp1, Hp2, !truthy_str by done.
  cbn [negb orb]. unfold bind_M, toLowerCase, ret_M.
  rewrite (findOne_nothing Users "email" _ d) by done.
  rewrite (findOne_first Users "email" _ d u) by done.
  rewrite Hh. cbn. rewrite Hcmp. cbn. eauto 10.
Qed.

(** A stored user without a [password] field (an account created by
    google-signup) is outside the comparison above: [bcrypt.compare] rejects
    its arguments and the handler answers 500. *)
Lemma login_account_without_password reqBody d email password u :
  get reqBody "email" = VStr email → email ≠ "" →
  get reqBody "password" = VStr password → password ≠ "" →
  first_match (field_is "email" (VStr (String_toLowerCase email))) (users d) u →
  get u "password" = VUndefined →
  login compare_strings String_toLowerCase reqBody d =
    Some {| resp := {| status := 500;
                       body := error_body "Illegal arguments: string, undefined" |};
            store := d;
            trace := [OpFindOne Users
                        [("email", CEq (VStr (String_toLowerCase email)))]] |}.
Proof.
  intros He ? Hp ? Hfirst Hnone.
  unfold login, try_catch, login_try.
  rewrite He, Hp, !truthy_str by done.
  cbn [negb orb]. unfold bind_M, toLowerCase, ret_M.
  rewrite (findOne_first Users "email" _ d u) by done.
  by rewrite Hnone.
Qed.

(** C4.  Whenever a login is answered with status 200, the body is
    [{ success: true, user }] where [user] has exactly the properties [id],
    [name], [email] and [username], taken from the stored user the
    lower-cased email selects; it has no [password] property.  The database
    is unchanged. *)
Theorem login_success_view reqBody d r :
  login compare_strings String_toLowerCase reqBody d = Some r →
  status (resp r) = 200%nat →
  ∃ email u hex view,
    get reqBody "email" = VStr email ∧
    first_match (field_is "email" (VStr (String_toLowerCase email)))
      (users d) u ∧
    (get u "_id" = VObjectId hex ∨ get u "_id" = VStr hex) ∧
    body (resp r) =
      VObj (object [("success", VBool true); ("user", VObj view)]) ∧
    dom view = {[ "id"; "name"; "email"; "username" ]} ∧
    get view "id" = VStr hex ∧
    get view "name" = get u "name" ∧
    get view "email" = get u "email" ∧
    get view "username" = get u "username" ∧
    view !! "password" = None ∧
    store r = d.
Proof.
  unfold login, try_catch, login_try.
  destruct (negb (truthy (get reqBody "email")) ||
            negb (truthy (get reqBody "password"))) eqn:Hguard.
  { intros [= <-]. done. }
  unfold bind_M, toLowerCase.
  destruct (get reqBody "email") as [| | | |email| | | |] eqn:He;
    try (intros [= <-]; done).
  cbn [ret_M].
  destruct (findOne _ _ d) as [[u|] d1 o1| |] eqn:Hfind;
    [| by intros [= <-] | by intros [= <-] | done ].
  apply findOne_inv in Hfind as (-> & -> & Hfirst).
  unfold bcrypt_compare.
  destruct (get reqBody "password") as [| | | |password| | | |] eqn:Hp;
    try (intros [= <-]; done).
  destruct (get u "password") as [| | | |h| | | |] eqn:Hh;
    try (intros [= <-]; done).
  destruct (compare_strings password h) as [msg|[|]] eqn:Hcmp; cbn;
    try (intros [= <-]; done).
  unfold toString.
  destruct (get u "_id") as [| | | |hex| |hex| |] eqn:Hid; cbn;
    try (intros [= <-]; done); try done.
  all: intros [= <-] _; exists email, u, hex; eexists;
    split_and!; try done; eauto.
Qed.

Lemma googleSignup_existing e reqBody d email u :
  get reqBody "email" = VStr email → email ≠ "" →
  truthy (get reqBody "name") = true →
  truthy (get reqBody "googleId") = true →
  first_match (field_is "email" (VStr email)) (users d) u →
  googleSignup e reqBody d = Some (google_reply u d (VStr email)).
Proof.
  intros He ? Hn Hg Hfirst.
  unfold googleSignup, try_catch, googleSignup_try.
  rewrite He, Hn, Hg, truthy_str by done. cbn [negb orb]. unfold bind_M.
  by rewrite (findOne_first Users "email" _ d u).
Qed.

Lemma googleSignup_new e reqBody d email :
  get reqBody "email" = VStr email → email ≠ "" →
  truthy (get reqBody "name") = true →
  truthy (get reqBody "googleId") = true →
  (∀ u, u ∈ users d → ¬ field_is "email" (VStr email) u) →
  (∀ u, u ∈ users d → get u "_id" ≠ VObjectId (env_oid e)) →
  let stored := <["_id" := VObjectId (env_oid e)]> (google_user e reqBody) in
  googleSignup e reqBody d =
    Some {| resp := {| status := 200;
                       body := VObj (object
                         [("success", VBool true);
                          ("user", VObj (<["id" := VStr (env_oid e)]> stored))]) |};
            store := {| users := users d ++ [stored]; products := products d |};
            trace := [OpFindOne Users [("email", CEq (VStr email))];
                      OpInsertOne Users (google_user e reqBody)] |}.
Proof.
  intros He ? Hn Hg Hnone Hfresh.
  unfold googleSignup, try_catch, googleSignup_try.
  rewrite Hn, Hg, He, truthy_str by done. cbn [negb orb]. unfold bind_M.
  rewrite (findOne_nothing Users "email" _ d) by done.
  rewrite insertOne_fresh; [|done|done].
  unfold google_user. rewrite He. done.
Qed.

(** C5.  Once a user with the request's email is stored, google-signup
    performs a lookup and nothing else: the database is unchanged (no
    document is inserted and none is modified, so no [googleId] is merged
    into the account) and the answer is a success carrying the stored user
    as it is; repeating the call gives the same reply.  When no such user is
    stored, the first call inserts one document and a second call with the
    same email returns that document and inserts nothing. *)
Theorem googleSignup_idempotent e1 e2 reqBody d email :
  get reqBody "email" = VStr email → email ≠ "" →
  truthy (get reqBody "name") = true →
  truthy (get reqBody "googleId") = true →
  ((∃ v, v ∈ users d ∧ get v "email" = VStr email) →
   ∃ u,
     first_match (field_is "email" (VStr email)) (users d) u ∧
     googleSignup e1 reqBody d = Some (google_reply u d (VStr email)) ∧
     googleSignup e2 reqBody (store (google_reply u d (VStr email))) =
       Some (google_reply u d (VStr email))) ∧
  ((∀ u, u ∈ users d → ¬ field_is "email" (VStr email) u) →
   (∀ u, u ∈ users d → get u "_id" ≠ VObjectId (env_oid e1)) →
   ∃ r1 stored,
     googleSignup e1 reqBody d = Some r1 ∧
     stored = <["_id" := VObjectId (env_oid e1)]> (google_user e1 reqBody) ∧
     store r1 = {| users := users d ++ [stored]; products := products d |} ∧
     googleSignup e2 reqBody (store r1) =
       Some (google_reply stored (store r1) (VStr email))).
Proof.
  intros He ? Hn Hg. split.
  { intros (v & Hv & Hemail).
    destruct (field_first_exists "email" (VStr email) (users d)) as [u Hfirst].
    { exists v. split; [done|by left]. }
    exists u. split; [done|].
    by rewrite !(googleSignup_existing _ _ d email u). }
  intros Hnone Hfresh. do 2 eexists.
  rewrite (googleSignup_new e1 reqBody d email) by done.
  split; [done|]. split; [done|]. split; [done|].
  cbn [store]. apply googleSignup_existing; try done.
  apply first_match_appended; [done|]. left.
  unfold get, google_user, object. cbn [list_to_map foldr].
  rewrite !lookup_insert_ne, lookup_insert_eq by done. done.
Qed.

(** C10.  When the email of a google-signup request selects a stored user,
    the 200 response carries that stored document as it is, under [user]:
    every field of the document, and so the [password] field with the stored
    hash when the account has one. *)
Theorem googleSignup_returns_stored_document e reqBody d email u :
  get reqBody "email" = VStr email → email ≠ "" →
  truthy (get reqBody "name") = true →
  truthy (get reqBody "googleId") = true →
  first_match (field_is "email" (VStr email)) (users d) u →
  ∃ r,
    googleSignup e reqBody d = Some r ∧
    status (resp r) = 200%nat ∧
    body_field (resp r) "success" = VBool true ∧
    body_field (resp r) "user" = VObj u ∧
    (∀ h, get u "password" = VStr h →
          ∃ returned, body_field (resp r) "user" = VObj returned ∧
                      get returned "password" = VStr h).
Proof.
  intros He ? Hn Hg Hfirst. eexists.
  split; [by apply (googleSignup_existing e reqBody d email u)|].
  cbn. split_and!; try done. eauto.
Qed.

(** An account created by password signup, then a google-signup with the
    same email: the response discloses the stored bcrypt hash. *)
Lemma signup_then_googleSignup_discloses_hash
    e e' reqBody reqBody' d name email username password :
  get reqBody "name" = VStr name → get reqBody "email" = VStr email →
  get reqBody "username" = VStr username →
  get reqBody "password" = VStr password →
  name ≠ "" → email ≠ "" → username ≠ "" → password ≠ "" →
  (∀ u, u ∈ users d → ¬ field_is "email" (VStr email) u) →
  (∀ u, u ∈ users d → get u "_id" ≠ VObjectId (env_oid e)) →
  get reqBody' "email" = VStr email →
  truthy (get reqBody' "name") = true →
  truthy (get reqBody' "googleId") = true →
  ∃ r r' returned,
    signup hash_string e reqBody d = Some r ∧
    googleSignup e' reqBody' (store r) = Some r' ∧
    status (resp r') = 200%nat ∧
    body_field (resp r') "user" = VObj returned ∧
    get returned "password" = VStr (hash_string password 10 (env_salt e)).
Proof.
  intros Hn He Hu Hp ? ? ? ? Hnone Hfresh He' Hn' Hg'. do 3 eexists.
  split; [by apply (signup_new e reqBody d name email username password)|].
  cbn [store]. split.
  { apply (googleSignup_existing e' reqBody' _ email); try done.
    apply first_match_appended; [done|]. by left. }
  done.
Qed.

(** What a signup answered with status 200 has done. *)
Lemma signup_inv e reqBody d r :
  signup hash_string e reqBody d = Some r →
  status (resp r) = 200%nat →
  ∃ password stored,
    get reqBody "password" = VStr password ∧
    stored = object [("_id", VObjectId (env_oid e));
                     ("name", get reqBody "name");
                     ("email", get reqBody "email");
                     ("username", get reqBody "username");
                     ("password", VStr (hash_string password 10 (env_salt e)));
                     ("createdAt", VDate (Some (env_now e)))] ∧
    store r = {| users := users d ++ [stored]; products := products d |} ∧
    trace r = [OpFindOne Users [("email", CEq (get reqBody "email"))];
               OpInsertOne Users (delete "_id" stored)].
Proof.
  unfold signup, try_catch, signup_try.
  destruct (_ || _) eqn:Hguard; [by intros [= <-]|].
  unfold bind_M.
  destruct (findOne _ _ d) as [[u|] d1 o1| |] eqn:Hfind;
    [by intros [= <-] | | by intros [= <-] | done ].
  apply findOne_inv in Hfind as (-> & -> & Hnone).
  unfold bcrypt_hash.
  destruct (get reqBody "password") as [| | | |password| | | |] eqn:Hp;
    try (intros [= <-]; done).
  cbn [ret_M]. unfold insertOne.
  replace (object _ !! "_id") with (@None value) by done.
  case_bool_decide; [by intros [= <-]|].
  intros [= <-] _. exists password. eexists. split_and!; try done.
Qed.

(** A login always completes when the stored users carry the identifiers
    the driver generates. *)
Lemma login_completes reqBody d email :
  get reqBody "email" = VStr email →
  (∀ u, u ∈ users d → ∃ hex, get u "_id" = VObjectId hex) →
  ∃ r, login compare_strings String_toLowerCase reqBody d = Some r.
Proof.
  intros He Hids. unfold login, try_catch, login_try.
  destruct (_ || _) eqn:Hguard; [by eexists|].
  rewrite He. unfold bind_M, toLowerCase, ret_M.
  destruct (findOne _ _ d) as [o d1 o1|msg d1 o1|] eqn:Hfind;
    [| by apply findOne_throw in Hfind
     | unfold findOne in Hfind; by rewrite resolve_eq in Hfind ].
  apply findOne_inv in Hfind as (-> & -> & Hfirst).
  destruct o as [u|]; [|by eexists].
  destruct Hfirst as (i & Hi%list_elem_of_lookup_2 & _).
  destruct (Hids u Hi) as [hex Hhex].
  unfold bcrypt_compare.
  destruct (get reqBody "password"); try (by eexists).
  destruct (get u "password"); try (by eexists).
  destruct (compare_strings _ _) as [msg|[|]]; cbn; try (by eexists).
  rewrite Hhex. by eexists.
Qed.

(** C9.  Login looks the user up by the lower-cased email: every login of
    a request with a string email that gets past the presence check issues
    exactly one store operation, a lookup of [email.toLowerCase()] (and a
    login does complete when the stored users carry generated identifiers).
    Signup does not normalise: a successful signup looks the email up as
    supplied and stores it as supplied. *)
Theorem email_normalisation_asymmetric reqBody d email :
  get reqBody "email" = VStr email →
  (∀ r, login compare_strings String_toLowerCase reqBody d = Some r →
        status (resp r) ≠ 400%nat →
        trace r = [OpFindOne Users
                     [("email", CEq (VStr (String_toLowerCase email)))]]) ∧
  ((∀ u, u ∈ users d → ∃ hex, get u "_id" = VObjectId hex) →
   ∃ r, login compare_strings String_toLowerCase reqBody d = Some r) ∧
  (∀ e r, signup hash_string e reqBody d = Some r →
          status (resp r) = 200%nat →
          ∃ stored,
            users (store r) = users d ++ [stored] ∧
            get stored "email" = VStr email ∧
            head (trace r) =
              Some (OpFindOne Users [("email", CEq (VStr email))])).
Proof.
  intros He. split_and!.
  - unfold login, try_catch, login_try.
    destruct (_ || _) eqn:Hguard; [by intros r [= <-]|].
    rewrite He. unfold bind_M, toLowerCase, ret_M.
    destruct (findOne _ _ d) as [o d1 o1|msg d1 o1|] eqn:Hfind;
      [| by apply findOne_throw in Hfind | done ].
    apply findOne_inv in Hfind as (-> & -> & Hfirst).
    destruct o as [u|]; [|by intros r [= <-]].
    unfold bcrypt_compare.
    destruct (get reqBody "password"); try (by intros r [= <-]).
    destruct (get u "password"); try (by intros r [= <-]).
    destruct (compare_strings _ _) as [msg|[|]]; cbn; try (by intros r [= <-]).
    unfold toString. destruct (get u "_id"); cbn; try done;
      by intros r [= <-].
  - by apply (login_completes reqBody d email).
  - intros e r Hr Hs.
    destruct (signup_inv e reqBody d r Hr Hs) as (pw & stored & Hp & -> & -> & ->).
    eexists. split; [done|]. rewrite He. done.
Qed.

End Account.

(** * The catalog routes *)

(** The search text [.] selects every product of the sample shop. *)
Lemma listProducts_dot_run :
  listProducts Sample.query_dot Sample.db_shop =
    Some {| resp := {| status := 200;
                       body := VArr [VObj Sample.mouse; VObj Sample.laptop] |};
            store := Sample.db_shop;
            trace := [OpFind Products [("title", CRegex (VStr ".") "i")]] |}.
Proof. vm_compute. reflexivity. Qed.

(** C6, as the specification words it, fails: the search text is handed to
    the store as a regular expression, so the text [.] selects the product
    titled [Mouse], whose title does not contain a dot. *)
Lemma listProducts_substring_reading_fails :
  ¬ listProducts_substring_reading Sample.query_dot Sample.db_shop.
Proof.
  intros (r & docs & Hr & Hbody & Hiff).
  rewrite listProducts_dot_run in Hr. injection Hr as <-. cbn in Hbody.
  assert (Sample.mouse ∈ docs) as Hin.
  { destruct docs as [|doc docs]; simplify_eq/=. left. }
  apply Hiff in Hin as (_ & _ & [Hs|(s & t & Hs & Ht & pre & post & Hc)]).
  - discriminate Hs.
  - assert (s = ".") as -> by (by injection Hs).
    assert (t = "Mouse") as -> by (by injection Ht).
    by eapply (absent_char_not_infix "."%char), Hc.
Qed.

(** C6, amended.  Let the category parameter be absent or a string, the
    search parameter be absent or a string of printable ASCII characters
    none of which is a regular-expression metacharacter and, when a search
    is made, let the titles in the collection be printable ASCII.  Then
    [listProducts] answers 200 with exactly the documents of the collection,
    in their natural order, that satisfy both conditions: the category
    field equals the category parameter (or is an array that has it as an
    element) when that parameter is given and non-empty, and the title
    contains the search text as a case-insensitive substring (or is an array
    with such an element) when that parameter is given and non-empty.  With
    neither parameter the whole collection is returned.  The database is
    unchanged. *)
Theorem listProducts_selects qs d :
  (get qs "category" = VUndefined ∨ ∃ c, get qs "category" = VStr c) →
  (get qs "search" = VUndefined ∨
   ∃ s, get qs "search" = VStr s ∧ literal_text s) →
  (truthy (get qs "search") = true → Forall title_in_fragment (products d)) →
  ∃ docs,
    listProducts qs d =
      Some {| resp := {| status := 200; body := VArr (VObj <$> docs) |};
              store := d;
              trace := [OpFind Products (products_query qs)] |} ∧
    docs `sublist_of` products d ∧
    (∀ doc, doc ∈ docs ↔
            doc ∈ products d ∧ category_selected qs doc ∧ title_selected qs doc) ∧
    (truthy (get qs "category") = false → truthy (get qs "search") = false →
     docs = products d).
Proof.
  intros Hcat Hsearch Hfrag.
  assert (∀ doc, doc ∈ products d →
            ∃ hit, sat (products_tests qs) doc = Some hit ∧
                   (hit = true ↔
                    category_selected qs doc ∧ title_selected qs doc))
    as Hsat.
  { intros doc Hdoc. apply products_tests_sat; try done.
    intros Hs. by eapply Forall_forall in Hfrag. }
  exists (filter (holds (products_tests qs)) (products d)). split_and!.
  - unfold listProducts, try_catch, listProducts_try, bind_M, find_toArray,
      resolve.
    rewrite (compiled_not_refused _ _ (products_query_compiles qs Hcat Hsearch)).
    rewrite products_query_compiles by done. cbn.
    rewrite bool_decide_eq_true_2; [done|].
    apply Forall_forall. intros doc Hdoc.
    destruct (Hsat doc Hdoc) as (hit & -> & _). eauto.
  - apply sublist_filter.
  - intros doc. rewrite list_elem_of_filter. unfold holds. split.
    + intros [Hh Hdoc]. destruct (Hsat doc Hdoc) as (hit & Hhit & Hiff).
      split; [done|]. apply Hiff. congruence.
    + intros (Hdoc & Hsel). split; [|done].
      destruct (Hsat doc Hdoc) as (hit & -> & Hiff). f_equal. by apply Hiff.
  - intros Hc Hs. apply filter_all. intros doc Hdoc.
    unfold holds, products_tests. by rewrite Hc, Hs.
Qed.

Section Catalog.

Variable Date_new : value → option Z.

(** C8.  For an identifier that is not 24 hexadecimal digits,
    [updateProduct] answers 400 before anything else happens, while
    [getProduct] and [deleteProduct] let [new ObjectId(id)] throw and answer
    500 with the message of the exception.  None of them reaches the
    store. *)
Theorem malformed_id_classification id reqBody d :
  ObjectId_isValid id = false →
  updateProduct Date_new id reqBody d =
    Some {| resp := {| status := 400; body := error_body "Invalid product ID" |};
            store := d; trace := [] |} ∧
  getProduct id d = Some (server_error BSONError_message d) ∧
  deleteProduct id d = Some (server_error BSONError_message d).
Proof.
  intros Hid. split_and!.
  - unfold updateProduct, try_catch, updateProduct_try. by rewrite Hid.
  - unfold getProduct, try_catch, getProduct_try, bind_M, new_ObjectId.
    by rewrite Hid.
  - unfold deleteProduct, try_catch, deleteProduct_try, bind_M, new_ObjectId.
    by rewrite Hid.
Qed.








End Catalog.



(** The same reading fails in a second way: a [released_date] that is not
    the text of a date is coerced to an invalid date, which the store keeps
    as the epoch, so the stored field differs from the value in the
    patch. *)
Lemma updateProduct_invalid_date_reading :
  ¬ updateProduct_merge_reading Sample.Date_new Sample.mouse_id
      Cases.patch_invalid_date Sample.db_shop.
Proof.
  intros Hread.
  assert (first_match (field_is "_id" (VObjectId Sample.mouse_id))
            (products Sample.db_shop) Sample.mouse) as Hfirst.
  { apply first_match_head. by left. }
  destruct (Hread (VObjectId Sample.mouse_id) Sample.mouse eq_refl Hfirst)
    as (r & doc' & Hr & Hfirst' & _ & Hset).
  specialize (Hset "released_date" (VDate None) eq_refl).
  assert (∃ new, products (store r) = [new; Sample.laptop] ∧
                 get new "_id" = VObjectId Sample.mouse_id ∧
                 new !! "released_date" = Some (VDate (Some 0)))
    as (new & Hst & Hid & Hnew).
  { vm_compute in Hr. injection Hr as <-. eexists. by split_and!. }
  rewrite Hst in Hfirst'.
  assert (first_match (field_is "_id" (VObjectId Sample.mouse_id))
            [new; Sample.laptop] new) as Hhead.
  { apply first_match_head. by left. }
  rewrite (first_match_unique _ _ _ _ Hfirst' Hhead) in Hset.
  rewrite Hnew in Hset. discriminate Hset.
Qed.

(** The store's treatment of an unclosed group, of a value that is not
    JSON, and of a product body with its own [_id]. *)
Example unclosed_group_values :
  unclosed_group "lap(" = true ∧ unclosed_group "(" = true ∧
  unclosed_group "la(p" = true ∧ unclosed_group "lap" = false ∧
  unclosed_group "(lap)" = false ∧ unclosed_group "((" = false ∧
  unclosed_group "la*(" = false.
Proof. by vm_compute. Qed.

Example bson_values :
  bson (VDate None) = VDate (Some 0) ∧
  bson (VDate (Some 1705276800000)) = VDate (Some 1705276800000) ∧
  bson (VArr [VUndefined; VStr "a"; VNum 1]) = VArr [VNull; VStr "a"; VNum 1] ∧
  bson (VObjectId "65f1a2b3c4d5e6f708192b01") =
    VObjectId "65f1a2b3c4d5e6f708192b01".
Proof. by vm_compute. Qed.

Example createProduct_own_id_run :
  createProduct Cases.e3 Cases.usb_hub Sample.db_shop =
    Some {| resp := {| status := 200;
                       body := VObj (object [("acknowledged", VBool true);
                                             ("insertedId", VStr "usb-hub")]) |};
            store := {| users := users Sample.db_shop;
                        products := products Sample.db_shop ++ [Cases.usb_hub] |};
            trace := [OpInsertOne Products Cases.usb_hub] |}.
Proof. by vm_compute. Qed.

Example updateProduct_invalid_date_run :
  ∃ r, updateProduct Sample.Date_new Sample.mouse_id Cases.patch_invalid_date
         Sample.db_shop = Some r ∧
       status (resp r) = 200%nat ∧
       ∃ doc', products (store r) = [doc'; Sample.laptop] ∧
               get doc' "released_date" = VDate (Some 0) ∧
               get doc' "price" = VNum 19 ∧
               get doc' "title" = VStr "Mouse".
Proof. eexists. split; [by vm_compute|]. split; [done|]. by eexists. Qed.

(** * The statements on sample data *)

Lemma no_user_with_email (email : string) :
  email ≠ "ann@example.com" →
  ∀ u, u ∈ users Sample.db_ann → ¬ field_is "email" (VStr email) u.
Proof.
  intros Hne u ->%list_elem_of_singleton [H|(l & H & _)].
  - change (VStr "ann@example.com" = VStr email) in H. congruence.
  - discriminate H.
Qed.

Lemma sample_oid_fresh e :
  env_oid e ≠ "65f1a2b3c4d5e6f708192a00" →
  ∀ u, u ∈ users Sample.db_ann → get u "_id" ≠ VObjectId (env_oid e).
Proof.
  destruct e as [oid now salt]. cbn. intros Hne u ->%list_elem_of_singleton H.
  change (VObjectId "65f1a2b3c4d5e6f708192a00" = VObjectId oid) in H.
  congruence.
Qed.

Lemma ann_first (email : string) :
  email = "ann@example.com" →
  first_match (field_is "email" (VStr email)) (users Sample.db_ann) Sample.ann.
Proof. intros ->. apply first_match_head. by left. Qed.

Lemma signup_creates_user_witness :
  (∀ u, u ∈ users Sample.db_ann →
        ¬ field_is "email" (VStr "Bob@Example.com") u) ∧
  (∀ u, u ∈ users Sample.db_ann →
        get u "_id" ≠ VObjectId (env_oid Sample.e1)) ∧
  ∃ r stored,
    signup Sample.hash_string Sample.e1 Sample.signup_bob Sample.db_ann
      = Some r ∧
    status (resp r) = 200%nat ∧
    body_field (resp r) "success" = VBool true ∧
    body_field (resp r) "userId" = get stored "_id" ∧
    store r = {| users := users Sample.db_ann ++ [stored];
                 products := products Sample.db_ann |} ∧
    trace r = [OpFindOne Users [("email", CEq (VStr "Bob@Example.com"))];
               OpInsertOne Users (delete "_id" stored)] ∧
    stored = object [("_id", VObjectId (env_oid Sample.e1));
                     ("name", VStr "Bob"); ("email", VStr "Bob@Example.com");
                     ("username", VStr "bob");
                     ("password",
                      VStr (Sample.hash_string "hunter2" 10
                              (env_salt Sample.e1)));
                     ("createdAt", VDate (Some (env_now Sample.e1)))] ∧
    (Sample.hash_string "hunter2" 10 (env_salt Sample.e1) ≠ "hunter2" →
     ∀ k, k ≠ "name" → k ≠ "email" → k ≠ "username" →
          get stored k ≠ VStr "hunter2").
Proof.
  assert (∀ u, u ∈ users Sample.db_ann →
               ¬ field_is "email" (VStr "Bob@Example.com") u) as Hnone
    by (by apply no_user_with_email).
  assert (∀ u, u ∈ users Sample.db_ann →
               get u "_id" ≠ VObjectId (env_oid Sample.e1)) as Hfresh
    by (by apply sample_oid_fresh).
  split; [exact Hnone|]. split; [exact Hfresh|].
  apply (signup_creates_user Sample.hash_string Sample.e1 Sample.signup_bob
           Sample.db_ann "Bob" "Bob@Example.com" "bob" "hunter2");
    first [ exact Hnone | exact Hfresh | sample ].
Defined.

Lemma signup_conflict_witness :
  (∃ u, u ∈ users Sample.db_ann ∧ get u "email" = VStr "ann@example.com") ∧
  signup Sample.hash_string Sample.e1 Sample.signup_ann_again Sample.db_ann =
    Some {| resp := {| status := 409;
                       body := error_body "Email already registered" |};
            store := Sample.db_ann;
            trace := [OpFindOne Users
                        [("email", CEq (VStr "ann@example.com"))]] |}.
Proof.
  assert (∃ u, u ∈ users Sample.db_ann ∧
               get u "email" = VStr "ann@example.com") as Hex.
  { exists Sample.ann. split; [left|reflexivity]. }
  split; [exact Hex|].
  apply (signup_conflict Sample.hash_string Sample.e1 Sample.signup_ann_again
           Sample.db_ann "ann@example.com");
    first [ exact Hex | sample ].
Defined.

Lemma login_failures_indistinguishable_witness :
  Sample.compare_strings "guess"
    (Sample.hash_string "s3cret" 10 "N9qo8uLOickgx2ZMRZoMye") = inr false ∧
  ∃ r1 r2,
    login Sample.compare_strings Sample.String_toLowerCase
      Sample.login_unknown Sample.db_ann = Some r1 ∧
    login Sample.compare_strings Sample.String_toLowerCase
      Sample.login_ann_wrong Sample.db_ann = Some r2 ∧
    resp r1 = resp r2 ∧
    resp r1 = invalid_credentials ∧
    store r1 = Sample.db_ann ∧ store r2 = Sample.db_ann.
Proof.
  split; [by vm_compute|].
  apply (login_failures_indistinguishable Sample.compare_strings
           Sample.String_toLowerCase Sample.login_unknown
           Sample.login_ann_wrong Sample.db_ann
           "Carol@Example.com" "Ann@Example.com" "guess" Sample.ann
           (Sample.hash_string "s3cret" 10 "N9qo8uLOickgx2ZMRZoMye"));
    first [ by apply no_user_with_email; vm_compute
          | by apply ann_first; vm_compute
          | sample ].
Defined.

Lemma login_success_view_witness :
  ∃ r,
    login Sample.compare_strings Sample.String_toLowerCase Sample.login_ann
      Sample.db_ann = Some r ∧
    status (resp r) = 200%nat ∧
    ∃ email u hex view,
      get Sample.login_ann "email" = VStr email ∧
      first_match (field_is "email" (VStr (Sample.String_toLowerCase email)))
        (users Sample.db_ann) u ∧
      (get u "_id" = VObjectId hex ∨ get u "_id" = VStr hex) ∧
      body (resp r) =
        VObj (object [("success", VBool true); ("user", VObj view)]) ∧
      dom view = {[ "id"; "name"; "email"; "username" ]} ∧
      get view "id" = VStr hex ∧
      get view "name" = get u "name" ∧
      get view "email" = get u "email" ∧
      get view "username" = get u "username" ∧
      view !! "password" = None ∧
      store r = Sample.db_ann.
Proof.
  pose (r := {| resp := {| status := 200;
                           body := VObj (object
                             [("success", VBool true);
                              ("user", VObj (object
                                 [("id", VStr "65f1a2b3c4d5e6f708192a00");
                                  ("name", VStr "Ann");
                                  ("email", VStr "ann@example.com");
                                  ("username", VStr "ann")]))]) |};
                store := Sample.db_ann;
                trace := [OpFindOne Users
                            [("email", CEq (VStr "ann@example.com"))]] |}).
  assert (login Sample.compare_strings Sample.String_toLowerCase
            Sample.login_ann Sample.db_ann = Some r) as Hrun
    by (by vm_compute).
  exists r. split; [exact Hrun|]. split; [reflexivity|].
  exact (login_success_view Sample.compare_strings Sample.String_toLowerCase
           Sample.login_ann Sample.db_ann r Hrun eq_refl).
Defined.

Lemma googleSignup_idempotent_witness :
  (∃ v, v ∈ users Sample.db_ann ∧ get v "email" = VStr "ann@example.com") ∧
  (∃ u,
     first_match (field_is "email" (VStr "ann@example.com"))
       (users Sample.db_ann) u ∧
     googleSignup Sample.e1 Sample.google_ann Sample.db_ann =
       Some (google_reply u Sample.db_ann (VStr "ann@example.com")) ∧
     googleSignup Sample.e2 Sample.google_ann
       (store (google_reply u Sample.db_ann (VStr "ann@example.com"))) =
       Some (google_reply u Sample.db_ann (VStr "ann@example.com"))) ∧
  ∃ r1 stored,
    googleSignup Sample.e1 Sample.google_dan Sample.db_ann = Some r1 ∧
    stored = <["_id" := VObjectId (env_oid Sample.e1)]>
               (google_user Sample.e1 Sample.google_dan) ∧
    store r1 = {| users := users Sample.db_ann ++ [stored];
                  products := products Sample.db_ann |} ∧
    googleSignup Sample.e2 Sample.google_dan (store r1) =
      Some (google_reply stored (store r1) (VStr "dan@example.com")).
Proof.
  assert (∃ v, v ∈ users Sample.db_ann ∧
               get v "email" = VStr "ann@example.com") as Hex.
  { exists Sample.ann. split; [left|reflexivity]. }
  split; [exact Hex|]. split.
  - apply (googleSignup_idempotent Sample.e1 Sample.e2 Sample.google_ann
             Sample.db_ann "ann@example.com");
      first [ exact Hex | sample ].
  - apply (googleSignup_idempotent Sample.e1 Sample.e2 Sample.google_dan
             Sample.db_ann "dan@example.com");
      first [ by apply no_user_with_email
            | by apply sample_oid_fresh
            | sample ].
Defined.

Lemma googleSignup_returns_stored_document_witness :
  first_match (field_is "email" (VStr "ann@example.com"))
    (users Sample.db_ann) Sample.ann ∧
  ∃ r,
    googleSignup Sample.e2 Sample.google_ann Sample.db_ann = Some r ∧
    status (resp r) = 200%nat ∧
    body_field (resp r) "success" = VBool true ∧
    body_field (resp r) "user" = VObj Sample.ann ∧
    (∀ h, get Sample.ann "password" = VStr h →
          ∃ returned, body_field (resp r) "user" = VObj returned ∧
                      get returned "password" = VStr h).
Proof.
  split; [by apply ann_first|].
  apply (googleSignup_returns_stored_document Sample.e2 Sample.google_ann
           Sample.db_ann "ann@example.com" Sample.ann);
    first [ by apply ann_first | sample ].
Defined.

Lemma listProducts_selects_witness :
  literal_text "LAP" ∧
  Forall title_in_fragment (products Sample.db_shop) ∧
  ∃ docs,
    listProducts Sample.query_laptop Sample.db_shop =
      Some {| resp := {| status := 200; body := VArr (VObj <$> docs) |};
              store := Sample.db_shop;
              trace := [OpFind Products (products_query Sample.query_laptop)] |} ∧
    docs `sublist_of` products Sample.db_shop ∧
    (∀ doc, doc ∈ docs ↔
            doc ∈ products Sample.db_shop ∧
            category_selected Sample.query_laptop doc ∧
            title_selected Sample.query_laptop doc) ∧
    (truthy (get Sample.query_laptop "category") = false →
     truthy (get Sample.query_laptop "search") = false →
     docs = products Sample.db_shop).
Proof.
  assert (Forall title_in_fragment (products Sample.db_shop)) as Hfrag
    by (repeat constructor).
  split; [reflexivity|]. split; [exact Hfrag|].
  apply (listProducts_selects Sample.query_laptop Sample.db_shop).
  - right. by exists "Laptop".
  - right. by exists "LAP".
  - intros _. exact Hfrag.
Defined.


Lemma malformed_id_classification_witness :
  ObjectId_isValid "not-a-product-id" = false ∧
  updateProduct Sample.Date_new "not-a-product-id" Sample.patch_price
    Sample.db_shop =
    Some {| resp := {| status := 400; body := error_body "Invalid product ID" |};
            store := Sample.db_shop; trace := [] |} ∧
  getProduct "not-a-product-id" Sample.db_shop =
    Some (server_error BSONError_message Sample.db_shop) ∧
  deleteProduct "not-a-product-id" Sample.db_shop =
    Some (server_error BSONError_message Sample.db_shop).
Proof.
  split; [reflexivity|].
  apply (malformed_id_classification Sample.Date_new "not-a-product-id"
           Sample.patch_price Sample.db_shop).
  reflexivity.
Defined.

Lemma email_normalisation_asymmetric_witness :
  get Sample.signup_bob "email" = VStr "Bob@Example.com" ∧
  (∃ r, login Sample.compare_strings Sample.String_toLowerCase
          Sample.signup_bob Sample.db_ann = Some r ∧
        status (resp r) = 401%nat ∧
        trace r = [OpFindOne Users
                     [("email", CEq (VStr "bob@example.com"))]]) ∧
  (∃ r stored,
     signup Sample.hash_string Sample.e1 Sample.signup_bob Sample.db_ann
       = Some r ∧
     status (resp r) = 200%nat ∧
     users (store r) = users Sample.db_ann ++ [stored] ∧
     get stored "email" = VStr "Bob@Example.com" ∧
     head (trace r) =
       Some (OpFindOne Users [("email", CEq (VStr "Bob@Example.com"))])).
Proof.
  destruct (email_normalisation_asymmetric Sample.hash_string
              Sample.compare_strings Sample.String_toLowerCase
              Sample.signup_bob Sample.db_ann "Bob@Example.com" eq_refl)
    as (Hlogin & _ & Hsignup).
  split; [reflexivity|]. split.
  - pose (r := {| resp := invalid_credentials; store := Sample.db_ann;
                  trace := [OpFindOne Users
                              [("email", CEq (VStr "bob@example.com"))]] |}).
    assert (login Sample.compare_strings Sample.String_toLowerCase
              Sample.signup_bob Sample.db_ann = Some r) as Hrun
      by (by vm_compute).
    exists r. split; [exact Hrun|]. split; [reflexivity|].
    apply (Hlogin r Hrun). discriminate.
  - pose (stored := object
            [("_id", VObjectId (env_oid Sample.e1));
             ("name", VStr "Bob"); ("email", VStr "Bob@Example.com");
             ("username", VStr "bob");
             ("password",
              VStr (Sample.hash_string "hunter2" 10 (env_salt Sample.e1)));
             ("createdAt", VDate (Some (env_now Sample.e1)))]).
    pose (r := {| resp := {| status := 200;
                             body := VObj (object
                               [("success", VBool true);
                                ("message", VStr "User registered successfully");
                                ("userId", VObjectId (env_oid Sample.e1))]) |};
                  store := {| users := users Sample.db_ann ++ [stored];
                              products := products Sample.db_ann |};
                  trace := [OpFindOne Users
                              [("email", CEq (VStr "Bob@Example.com"))];
                            OpInsertOne Users (delete "_id" stored)] |}).
    assert (signup Sample.hash_string Sample.e1 Sample.signup_bob
              Sample.db_ann = Some r) as Hrun
      by (by vm_compute).
    destruct (Hsignup Sample.e1 r Hrun eq_refl) as (st & Hst & Hemail & Hhead).
    exists r, st. split_and!; done.
Defined.

(** * Further properties of the handlers *)

(** ** What a completed request can have done *)

Section AccountCases.

Variable hash_string : string → nat → string → string.
Variable compare_strings : string → string → string + bool.
Variable String_toLowerCase : string → string.

(** The four ways in which a signup ends. *)
Lemma signup_cases e reqBody d r :
  signup hash_string e reqBody d = Some r →
  (lacks reqBody ["name"; "email"; "username"; "password"] ∧
   resp r = {| status := 400; body := error_body "All fields are required" |} ∧
   store r = d ∧ trace r = []) ∨
  ((∃ u, first_match (field_is "email" (get reqBody "email")) (users d) u) ∧
   resp r = {| status := 409; body := error_body "Email already registered" |} ∧
   store r = d ∧
   trace r = [OpFindOne Users [("email", CEq (get reqBody "email"))]]) ∨
  ((∃ msg, resp r = {| status := 500; body := error_body msg |}) ∧
   (∀ u, u ∈ users d → ¬ field_is "email" (get reqBody "email") u) ∧
   store r = d) ∨
  (status (resp r) = 200%nat ∧
   (∀ u, u ∈ users d → ¬ field_is "email" (get reqBody "email") u) ∧
   (∀ u, u ∈ users d → get u "_id" ≠ VObjectId (env_oid e)) ∧
   ∃ password,
     get reqBody "password" = VStr password ∧
     store r =
       {| users := users d ++
            [<["_id" := VObjectId (env_oid e)]>
               (signup_user e (get reqBody "name") (get reqBody "email")
                  (get reqBody "username")
                  (VStr (hash_string password 10 (env_salt e))))];
          products := products d |}).
Proof.
  unfold signup, try_catch, signup_try.
  destruct (_ || _) eqn:Hguard.
  { intros [= <-]. left. split; [|done]. unfold lacks.
    rewrite !Exists_cons. rewrite !orb_true_iff, !negb_true_iff in Hguard.
    tauto. }
  unfold bind_M.
  destruct (findOne _ _ d) as [o d1 o1|msg d1 o1|] eqn:Hfind;
    [| by apply findOne_throw in Hfind | done ].
  apply findOne_inv in Hfind as (-> & -> & Hfirst).
  destruct o as [u|].
  { intros [= <-]. right. left. eauto. }
  unfold bcrypt_hash.
  destruct (get reqBody "password") as [| | | |password| | | |] eqn:Hp;
    try (intros [= <-]; right; right; left; cbn; eauto).
  cbn [ret_M]. unfold insertOne.
  replace (object _ !! "_id") with (@None value) by done.
  case_bool_decide as Hdup.
  - intros [= <-]. right. right. left. cbn. eauto.
  - intros [= <-]. right. right. right. cbn. split_and!; [done|done| |by eauto].
    intros u Hu Hid. apply Hdup, Exists_exists. eauto.
Qed.

(** The ways in which a google-signup ends. *)
Lemma googleSignup_cases e reqBody d r :
  googleSignup e reqBody d = Some r →
  (lacks reqBody ["email"; "name"; "googleId"] ∧
   resp r = {| status := 400; body := error_body "Missing required fields" |} ∧
   store r = d ∧ trace r = []) ∨
  (∃ u, first_match (field_is "email" (get reqBody "email")) (users d) u ∧
        r = google_reply u d (get reqBody "email")) ∨
  ((∃ msg, resp r = {| status := 500; body := error_body msg |}) ∧
   (∀ u, u ∈ users d → ¬ field_is "email" (get reqBody "email") u) ∧
   store r = d) ∨
  (status (resp r) = 200%nat ∧
   (∀ u, u ∈ users d → ¬ field_is "email" (get reqBody "email") u) ∧
   (∀ u, u ∈ users d → get u "_id" ≠ VObjectId (env_oid e)) ∧
   body (resp r) =
     VObj (object
       [("success", VBool true);
        ("user", VObj (<["id" := VStr (env_oid e)]>
                         (<["_id" := VObjectId (env_oid e)]>
                            (google_user e reqBody))))]) ∧
   store r =
     {| users := users d ++
          [<["_id" := VObjectId (env_oid e)]> (google_user e reqBody)];
        products := products d |}).
Proof.
  unfold googleSignup, try_catch, googleSignup_try.
  destruct (_ || _) eqn:Hguard.
  { intros [= <-]. left. split; [|done]. unfold lacks.
    rewrite !Exists_cons. rewrite !orb_true_iff, !negb_true_iff in Hguard.
    tauto. }
  unfold bind_M.
  destruct (findOne _ _ d) as [o d1 o1|msg d1 o1|] eqn:Hfind;
    [| by apply findOne_throw in Hfind | done ].
  apply findOne_inv in Hfind as (-> & -> & Hfirst).
  destruct o as [u|].
  { intros [= <-]. right. left. eauto. }
  fold (google_user e reqBody). unfold insertOne.
  replace (google_user e reqBody !! "_id") with (@None value) by done.
  case_bool_decide as Hdup.
  - intros [= <-]. right. right. left. cbn. eauto.
  - intros [= <-]. right. right. right. cbn. split_and!; try done.
    intros u Hu Hid. apply Hdup, Exists_exists. eauto.
Qed.

(** A login never writes: whatever the request, the database is returned
    as it was, and at most one lookup is made. *)
Lemma login_cases reqBody d r :
  login compare_strings String_toLowerCase reqBody d = Some r →
  store r = d ∧
  (trace r = [] ∨ ∃ q, trace r = [OpFindOne Users q]) ∧
  (resp r = {| status := 400;
               body := error_body "Email and password required" |} ∨
   resp r = invalid_credentials ∨
   (∃ msg, resp r = {| status := 500; body := error_body msg |}) ∨
   status (resp r) = 200%nat).
Proof.
  unfold login, try_catch, login_try.
  destruct (_ || _) eqn:Hguard; [intros [= <-]; cbn; eauto|].
  unfold bind_M, toLowerCase.
  destruct (get reqBody "email") as [| | | |email| | | |] eqn:He;
    try (intros [= <-]; cbn; eauto 10).
  cbn [ret_M].
  destruct (findOne _ _ d) as [o d1 o1|msg d1 o1|] eqn:Hfind;
    [| by apply findOne_throw in Hfind | done ].
  apply findOne_inv in Hfind as (-> & -> & Hfirst).
  destruct o as [u|]; [|intros [= <-]; cbn; eauto 10].
  unfold bcrypt_compare.
  destruct (get reqBody "password"); try (intros [= <-]; cbn; eauto 10).
  destruct (get u "password"); try (intros [= <-]; cbn; eauto 10).
  destruct (compare_strings _ _) as [msg|[|]]; cbn;
    try (intros [= <-]; cbn; eauto 10).
  unfold toString. destruct (get u "_id"); cbn; try done;
    intros [= <-]; cbn; eauto 10.
Qed.

End AccountCases.

Lemma resolve_eq_inv k q docs ts :
  resolve [(k, CEq q)] docs = Some ts → ts = [(k, TEq q)].
Proof.
  unfold resolve. cbn [mapM fst snd]. intros Hr.
  destruct q; simplify_eq/=; by case_bool_decide; simplify_eq/=.
Qed.

Lemma list_find_holds_eq k q docs :
  match list_find (holds [(k, TEq q)]) docs with
  | Some (i, u) =>
      docs !! i = Some u ∧ first_match (field_is k q) docs u ∧
      ∀ j v, docs !! j = Some v → (j < i)%nat → ¬ field_is k q v
  | None => ∀ u, u ∈ docs → ¬ field_is k q u
  end.
Proof.
  destruct (list_find _ _) as [[i u]|] eqn:Hf.
  - apply list_find_Some in Hf as (Hi & Hu%holds_eq & Hlt).
    assert (∀ j v, docs !! j = Some v → (j < i)%nat → ¬ field_is k q v) as Hlt'.
    { intros j v ? ? ?%holds_eq. by eapply Hlt. }
    split_and!; [done| |done]. exists i. eauto.
  - intros u Hu ?%holds_eq. eapply list_find_None, Forall_forall in Hf; eauto.
Qed.

Section CatalogCases.

Variable Date_new : value → option Z.

(** A product listing never writes.  It answers 200 with documents of the
    collection, or 500 when the store refuses the query. *)
Lemma listProducts_cases qs d r :
  listProducts qs d = Some r →
  store r = d ∧
  trace r = [OpFind Products (products_query qs)] ∧
  ((query_refused (products_query qs) = true ∧
    resp r = {| status := 500; body := error_body invalid_regex_message |}) ∨
   (query_refused (products_query qs) = false ∧
    status (resp r) = 200%nat ∧
    ∃ docs, body (resp r) = VArr (VObj <$> docs) ∧
            docs `sublist_of` products d)).
Proof.
  unfold listProducts, try_catch, listProducts_try, bind_M, find_toArray.
  destruct (query_refused _) eqn:Href.
  { intros [= <-]. cbn. split_and!; try done. by left. }
  destruct (resolve _ _) as [ts|]; [|done]. intros [= <-]. cbn.
  split_and!; try done. right. split_and!; try done.
  eexists. split; [done|]. apply sublist_filter.
Qed.

(** The three ways in which [getProduct] ends. *)
Lemma getProduct_cases id d r :
  getProduct id d = Some r →
  store r = d ∧
  ((ObjectId_isValid id = false ∧ r = server_error BSONError_message d) ∨
   (ObjectId_isValid id = true ∧
    (∀ u, u ∈ products d →
          ¬ field_is "_id" (VObjectId (string_map lower_ascii id)) u) ∧
    resp r = {| status := 404; body := error_body "Product not found" |}) ∨
   (ObjectId_isValid id = true ∧
    ∃ p, first_match (field_is "_id" (VObjectId (string_map lower_ascii id)))
           (products d) p ∧
         resp r = {| status := 200; body := VObj p |})).
Proof.
  unfold getProduct, try_catch, getProduct_try, bind_M, new_ObjectId.
  destruct (ObjectId_isValid id) eqn:Hid; cbn [lift ret_M throw].
  2: { intros [= <-]. split; [done|]. by left. }
  destruct (findOne _ _ d) as [o d1 o1|msg d1 o1|] eqn:Hfind;
    [| by apply findOne_throw in Hfind | done ].
  apply findOne_inv in Hfind as (-> & -> & Hfirst).
  destruct o as [p|]; intros [= <-]; (split; [done|]); right; [right|left];
    eauto.
Qed.

(** The ways in which [createProduct] ends: the identifier under which
    the body is stored is the generated one, or the string that the body
    brings as [_id]. *)
Lemma createProduct_cases e reqBody d r :
  createProduct e reqBody d = Some r →
  trace r = [OpInsertOne Products reqBody] ∧
  ∃ id stored,
    ((id = VObjectId (env_oid e) ∧ stored = <["_id" := id]> reqBody ∧
      (reqBody !! "_id" = None ∨ reqBody !! "_id" = Some VNull)) ∨
     (∃ s, id = VStr s ∧ stored = reqBody ∧ reqBody !! "_id" = Some (VStr s))) ∧
    get stored "_id" = id ∧
    (((∃ msg, resp r = {| status := 500; body := error_body msg |}) ∧
      (∃ u, u ∈ products d ∧ get u "_id" = id) ∧
      store r = d) ∨
     (resp r = {| status := 200;
                  body := VObj (object [("acknowledged", VBool true);
                                        ("insertedId", id)]) |} ∧
      (∀ u, u ∈ products d → get u "_id" ≠ id) ∧
      store r = {| users := users d; products := products d ++ [stored] |})).
Proof.
  unfold createProduct, try_catch, createProduct_try, bind_M, insertOne.
  destruct (reqBody !! "_id") as [[| | | |s| | | |]|] eqn:Hid; try done.
  - case_bool_decide as Hdup; intros [= <-]; (split; [done|]);
      exists (VObjectId (env_oid e)), (<["_id" := VObjectId (env_oid e)]> reqBody);
      (split; [left; eauto|]);
      (split; [unfold get; by rewrite lookup_insert_eq|]); [left|right]; cbn.
    + split_and!; eauto. by apply Exists_exists in Hdup.
    + split_and!; try done.
      intros u Hu Heq. apply Hdup, Exists_exists. eauto.
  - destruct (key_text s); [|done].
    case_bool_decide as Hdup; intros [= <-]; (split; [done|]);
      exists (VStr s), reqBody; (split; [right; eauto|]);
      (split; [unfold get; by rewrite Hid|]); [left|right]; cbn.
    + split_and!; eauto. by apply Exists_exists in Hdup.
    + split_and!; try done.
      intros u Hu Heq. apply Hdup, Exists_exists. eauto.
  - case_bool_decide as Hdup; intros [= <-]; (split; [done|]);
      exists (VObjectId (env_oid e)), (<["_id" := VObjectId (env_oid e)]> reqBody);
      (split; [left; eauto|]);
      (split; [unfold get; by rewrite lookup_insert_eq|]); [left|right]; cbn.
    + split_and!; eauto. by apply Exists_exists in Hdup.
    + split_and!; try done.
      intros u Hu Heq. apply Hdup, Exists_exists. eauto.
Qed.

(** What [createProduct] does to the database: nothing, or it appends one
    document whose identifier no product had. *)
Lemma createProduct_store e reqBody d r :
  createProduct e reqBody d = Some r →
  store r = d ∨
  ∃ stored,
    (stored = <["_id" := VObjectId (env_oid e)]> reqBody ∨ stored = reqBody) ∧
    (∀ u, u ∈ products d → get u "_id" ≠ get stored "_id") ∧
    store r = {| users := users d; products := products d ++ [stored] |}.
Proof.
  intros Hr. destruct (createProduct_cases e reqBody d r Hr)
    as (_ & id & stored & Hhow & Hid & [(_ & _ & ->)|(_ & Hfresh & ->)]);
    [by left|right].
  exists stored. rewrite Hid. split_and!; try done.
  destruct Hhow as [(-> & -> & _)|(s & -> & -> & _)]; auto.
Qed.

(** The ways in which [updateProduct] ends. *)
Lemma updateProduct_cases id reqBody d r :
  updateProduct Date_new id reqBody d = Some r →
  let oid := VObjectId (string_map lower_ascii id) in
  let patch := coerce_released_date Date_new reqBody in
  let kept := bson <$> patch in
  (ObjectId_isValid id = false ∧
   r = {| resp := {| status := 400; body := error_body "Invalid product ID" |};
          store := d; trace := [] |}) ∨
  (ObjectId_isValid id = true ∧ plain_patch patch ∧
   trace r = [OpUpdateOne Products [("_id", CEq oid)] patch] ∧
   ((( ∀ u, u ∈ products d → ¬ field_is "_id" oid u) ∧
     resp r = {| status := 200; body := update_result 0 0 |} ∧ store r = d) ∨
    (∃ i doc,
       products d !! i = Some doc ∧
       first_match (field_is "_id" oid) (products d) doc ∧
       (∀ j v, products d !! j = Some v → (j < i)%nat → ¬ field_is "_id" oid v) ∧
       ((resp r = {| status := 500;
                     body := error_body immutable_id_message |} ∧
         (∃ v, kept !! "_id" = Some v ∧ get doc "_id" ≠ v) ∧
         store r = d) ∨
        (resp r = {| status := 200;
                     body := update_result 1
                       (if bool_decide (kept ∪ doc = doc) then 0 else 1) |} ∧
         (∀ v, kept !! "_id" = Some v → get doc "_id" = v) ∧
         store r = {| users := users d;
                      products := <[i := kept ∪ doc]> (products d) |}))))).
Proof.
  unfold updateProduct, try_catch, updateProduct_try.
  destruct (ObjectId_isValid id) eqn:Hid; cbn [negb].
  2: { intros [= <-]. by left. }
  unfold bind_M, new_ObjectId. rewrite Hid. cbn [lift ret_M]. unfold updateOne.
  case_bool_decide as Hplain; [|done].
  destruct (resolve _ _) as [ts|] eqn:Hr; [|done].
  apply resolve_eq_inv in Hr as ->. cbn [coll_get].
  pose proof (list_find_holds_eq "_id"
                (VObjectId (string_map lower_ascii id)) (products d)) as Hfind.
  destruct (list_find _ _) as [[i doc]|].
  - destruct Hfind as (Hi & Hfirst & Hlt). unfold apply_set.
    destruct ((bson <$> coerce_released_date Date_new reqBody) !! "_id")
      as [v|] eqn:Hv.
    + case_bool_decide as Hsame; intros [= <-]; right;
        (split_and!; [done..|]); right; exists i, doc;
        (split_and!; [done..|]); [right|left]; cbn; split_and!; try done.
      * by intros ? [= <-].
      * eauto.
    + intros [= <-]. right. split_and!; [done..|]. right. exists i, doc.
      split_and!; [done..|]. right. cbn. split_and!; done.
  - intros [= <-]. right. split_and!; [done..|]. left. done.
Qed.

(** The ways in which [deleteProduct] ends. *)
Lemma deleteProduct_cases id d r :
  deleteProduct id d = Some r →
  let oid := VObjectId (string_map lower_ascii id) in
  (ObjectId_isValid id = false ∧ r = server_error BSONError_message d) ∨
  (ObjectId_isValid id = true ∧
   trace r = [OpDeleteOne Products [("_id", CEq oid)]] ∧
   (((∀ u, u ∈ products d → ¬ field_is "_id" oid u) ∧
     resp r = {| status := 200; body := delete_result 0 |} ∧ store r = d) ∨
    (∃ i doc,
       products d !! i = Some doc ∧
       first_match (field_is "_id" oid) (products d) doc ∧
       (∀ j v, products d !! j = Some v → (j < i)%nat → ¬ field_is "_id" oid v) ∧
       resp r = {| status := 200; body := delete_result 1 |} ∧
       store r = {| users := users d; products := delete i (products d) |}))).
Proof.
  unfold deleteProduct, try_catch, deleteProduct_try, bind_M, new_ObjectId.
  destruct (ObjectId_isValid id) eqn:Hid; cbn [lift ret_M throw].
  2: { intros [= <-]. by left. }
  unfold deleteOne.
  destruct (resolve _ _) as [ts|] eqn:Hr; [|done].
  apply resolve_eq_inv in Hr as ->. cbn [coll_get].
  pose proof (list_find_holds_eq "_id"
                (VObjectId (string_map lower_ascii id)) (products d)) as Hfind.
  destruct (list_find _ _) as [[i doc]|]; intros [= <-]; right;
    (split_and!; [done..|]); [right|left]; [|done].
  destruct Hfind as (Hi & Hfirst & Hlt). exists i, doc. done.
Qed.

End CatalogCases.

(** ** The account routes, continued *)

Lemma lacks_guard reqBody fields :
  lacks reqBody fields ↔
  existsb (λ k, negb (truthy (get reqBody k))) fields = true.
Proof.
  unfold lacks. rewrite Exists_exists, existsb_exists.
  split; intros (k & Hk & Hf); exists k.
  - by rewrite <- list_elem_of_In, Hf.
  - by rewrite list_elem_of_In, <- negb_true_iff.
Qed.

Section AccountMore.

Variable hash_string : string → nat → string → string.
Variable compare_strings : string → string → string + bool.
Variable String_toLowerCase : string → string.

(** X1.  Each account handler checks its required fields first: a request
    in which one of them is missing or falsy (empty string, [0], [false],
    [null]) is answered 400 with the handler's message, without any store
    operation and without change to the database; and a 400 is only ever
    answered for that reason. *)
Theorem presence_checks e reqBody d :
  (lacks reqBody ["name"; "email"; "username"; "password"] →
   signup hash_string e reqBody d =
     Some {| resp := {| status := 400;
                        body := error_body "All fields are required" |};
             store := d; trace := [] |}) ∧
  (lacks reqBody ["email"; "password"] →
   login compare_strings String_toLowerCase reqBody d =
     Some {| resp := {| status := 400;
                        body := error_body "Email and password required" |};
             store := d; trace := [] |}) ∧
  (lacks reqBody ["email"; "name"; "googleId"] →
   googleSignup e reqBody d =
     Some {| resp := {| status := 400;
                        body := error_body "Missing required fields" |};
             store := d; trace := [] |}) ∧
  (∀ r, signup hash_string e reqBody d = Some r →
        status (resp r) = 400%nat →
        lacks reqBody ["name"; "email"; "username"; "password"]) ∧
  (∀ r, googleSignup e reqBody d = Some r →
        status (resp r) = 400%nat →
        lacks reqBody ["email"; "name"; "googleId"]).
Proof.
  split_and!.
  - intros Hl%lacks_guard. cbn in Hl. rewrite orb_false_r, !orb_assoc in Hl.
    unfold signup, try_catch, signup_try. by rewrite Hl.
  - intros Hl%lacks_guard. cbn in Hl. rewrite orb_false_r in Hl.
    unfold login, try_catch, login_try. by rewrite Hl.
  - intros Hl%lacks_guard. cbn in Hl. rewrite orb_false_r, !orb_assoc in Hl.
    unfold googleSignup, try_catch, googleSignup_try. by rewrite Hl.
  - intros r Hr Hs.
    destruct (signup_cases hash_string e reqBody d r Hr)
      as [(? & _)|[(_ & Hresp & _)|[((msg & Hresp) & _)|(Hresp & _)]]];
      [done|..]; rewrite ?Hresp in Hs; done.
  - intros r Hr Hs.
    destruct (googleSignup_cases e reqBody d r Hr)
      as [(? & _)|[(u & _ & ->)|[((msg & Hresp) & _)|(Hresp & _)]]];
      [done|..]; rewrite ?Hresp in Hs; done.
Qed.

(** X2.  A signup whose password is present but not a string (a JSON number,
    [true], an array, an object) gets as far as [bcrypt.hash], which rejects
    its arguments: the answer is 500 with bcrypt's message, after the lookup
    and without any insertion. *)
Theorem signup_non_string_password e reqBody d email :
  get reqBody "email" = VStr email → email ≠ "" →
  truthy (get reqBody "name") = true →
  truthy (get reqBody "username") = true →
  truthy (get reqBody "password") = true →
  (∀ s, get reqBody "password" ≠ VStr s) →
  (∀ u, u ∈ users d → ¬ field_is "email" (VStr email) u) →
  signup hash_string e reqBody d =
    Some {| resp := {| status := 500;
                       body := error_body
                         ("Illegal arguments: " +:+
                          typeof (get reqBody "password") +:+ ", number") |};
            store := d;
            trace := [OpFindOne Users [("email", CEq (VStr email))]] |}.
Proof.
  intros He ? Hn Hu Hp Hnot Hnone.
  unfold signup, try_catch, signup_try.
  rewrite He, Hn, Hu, Hp, truthy_str by done.
  cbn [negb orb]. unfold bind_M.
  rewrite (findOne_nothing Users "email" (VStr email) d) by done.
  unfold bcrypt_hash.
  destruct (get reqBody "password") eqn:Hpw; try done.
  by destruct (Hnot s).
Qed.

(** X3.  A login whose email is present but not a string never reaches the
    store: [email.toLowerCase] is not a function, and the answer is 500. *)
Theorem login_non_string_email reqBody d :
  truthy (get reqBody "email") = true →
  truthy (get reqBody "password") = true →
  (∀ s, get reqBody "email" ≠ VStr s) →
  login compare_strings String_toLowerCase reqBody d =
    Some (server_error "email.toLowerCase is not a function" d).
Proof.
  intros He Hp Hnot. unfold login, try_catch, login_try.
  rewrite He, Hp. cbn [negb orb]. unfold bind_M, toLowerCase.
  destruct (get reqBody "email") eqn:Hemail; try done.
  by destruct (Hnot s).
Qed.

(** The fields of the document a successful signup stores. *)
Lemma signup_stored_fields e name email username hashed :
  let stored := <["_id" := VObjectId (env_oid e)]>
                  (signup_user e name email username hashed) in
  get stored "_id" = VObjectId (env_oid e) ∧ get stored "name" = name ∧
  get stored "email" = email ∧ get stored "username" = username ∧
  get stored "password" = hashed.
Proof.
  unfold get, signup_user, object. cbn [list_to_map foldr].
  split_and!; by rewrite ?lookup_insert_eq, ?lookup_insert_ne,
                         ?lookup_insert_eq by done.
Qed.

Lemma signup_stored_email e name email username hashed :
  get (<["_id" := VObjectId (env_oid e)]>
         (signup_user e name email username hashed)) "email" = email.
Proof. apply signup_stored_fields. Qed.

Lemma signup_stored_not_array e name email username hashed s :
  email = VStr s →
  ∀ q, field_is "email" q
         (<["_id" := VObjectId (env_oid e)]>
            (signup_user e name email username hashed)) → q = VStr s.
Proof.
  intros -> q [H|(l & H & _)]; rewrite signup_stored_email in H; congruence.
Qed.

(** X4.  Signup then login.  After a successful signup, a login with the
    same email and password succeeds, provided the email is already in
    lower case and [bcrypt.compare] accepts the pair: the 200 response
    carries the identifier that the signup returned and the stored name,
    email and username. *)
Theorem signup_then_login e reqBody reqBody' d name email username password :
  get reqBody "name" = VStr name → get reqBody "email" = VStr email →
  get reqBody "username" = VStr username →
  get reqBody "password" = VStr password →
  name ≠ "" → email ≠ "" → username ≠ "" → password ≠ "" →
  (∀ u, u ∈ users d → ¬ field_is "email" (VStr email) u) →
  (∀ u, u ∈ users d → get u "_id" ≠ VObjectId (env_oid e)) →
  get reqBody' "email" = VStr email →
  get reqBody' "password" = VStr password →
  String_toLowerCase email = email →
  compare_strings password (hash_string password 10 (env_salt e)) = inr true →
  ∃ r1 r2,
    signup hash_string e reqBody d = Some r1 ∧
    body_field (resp r1) "userId" = VObjectId (env_oid e) ∧
    login compare_strings String_toLowerCase reqBody' (store r1) = Some r2 ∧
    store r2 = store r1 ∧
    resp r2 =
      {| status := 200;
         body := VObj (object
           [("success", VBool true);
            ("user", VObj (object [("id", VStr (env_oid e));
                                   ("name", VStr name);
                                   ("email", VStr email);
                                   ("username", VStr username)]))]) |}.
Proof.
  intros Hn He Hu Hp ? ? ? ? Hnone Hfresh He' Hp' Hlow Hcmp. do 2 eexists.
  split; [by apply (signup_new hash_string e reqBody d name email username
                      password)|].
  cbn [resp store]. split; [done|].
  unfold login, try_catch, login_try.
  rewrite He', Hp', !truthy_str by done.
  cbn [negb orb]. unfold bind_M, toLowerCase, ret_M. rewrite Hlow.
  erewrite (findOne_first Users "email" (VStr email)); [|done|].
  2: { cbn [coll_get users]. apply first_match_appended; [done|].
       left. apply signup_stored_email. }
  destruct (signup_stored_fields e (VStr name) (VStr email) (VStr username)
              (VStr (hash_string password 10 (env_salt e))))
    as (-> & -> & -> & -> & ->).
  cbn. rewrite Hcmp. done.
Qed.

(** X5.  Signup stores the email as supplied while login looks up its
    lower-cased form, so an account registered with a capital letter in its
    email cannot log in: unless another stored user has the lower-cased
    email, the login is answered 401 even with the right password. *)
Theorem login_after_mixed_case_signup
    e reqBody reqBody' d name email username password :
  get reqBody "name" = VStr name → get reqBody "email" = VStr email →
  get reqBody "username" = VStr username →
  get reqBody "password" = VStr password →
  name ≠ "" → email ≠ "" → username ≠ "" → password ≠ "" →
  (∀ u, u ∈ users d → ¬ field_is "email" (VStr email) u) →
  (∀ u, u ∈ users d → get u "_id" ≠ VObjectId (env_oid e)) →
  get reqBody' "email" = VStr email →
  truthy (get reqBody' "password") = true →
  String_toLowerCase email ≠ email →
  (∀ u, u ∈ users d →
        ¬ field_is "email" (VStr (String_toLowerCase email)) u) →
  ∃ r1 r2,
    signup hash_string e reqBody d = Some r1 ∧
    status (resp r1) = 200%nat ∧
    login compare_strings String_toLowerCase reqBody' (store r1) = Some r2 ∧
    resp r2 = invalid_credentials ∧
    store r2 = store r1.
Proof.
  intros Hn He Hu Hp ? ? ? ? Hnone Hfresh He' Hp' Hlow Hnone'. do 2 eexists.
  split; [by apply (signup_new hash_string e reqBody d name email username
                      password)|].
  cbn [resp store status]. split; [done|].
  unfold login, try_catch, login_try.
  rewrite He', Hp', !truthy_str by done.
  cbn [negb orb]. unfold bind_M, toLowerCase, ret_M.
  rewrite (findOne_nothing Users "email"); [done|done|].
  cbn [coll_get users]. intros u [Hu'|Hu']%elem_of_app; [by apply Hnone'|].
  apply list_elem_of_singleton in Hu' as ->. intros Hf.
  apply (signup_stored_not_array _ _ _ _ _ email) in Hf; [|done]. congruence.
Qed.

(** X6.  A second signup with an email that a first signup registered is
    answered 409, whatever its other fields, and inserts nothing: the
    collection holds one document for that email. *)
Theorem signup_twice e e' reqBody reqBody' d name email username password :
  get reqBody "name" = VStr name → get reqBody "email" = VStr email →
  get reqBody "username" = VStr username →
  get reqBody "password" = VStr password →
  name ≠ "" → email ≠ "" → username ≠ "" → password ≠ "" →
  (∀ u, u ∈ users d → ¬ field_is "email" (VStr email) u) →
  (∀ u, u ∈ users d → get u "_id" ≠ VObjectId (env_oid e)) →
  get reqBody' "email" = VStr email →
  truthy (get reqBody' "name") = true →
  truthy (get reqBody' "username") = true →
  truthy (get reqBody' "password") = true →
  ∃ r1 r2 stored,
    signup hash_string e reqBody d = Some r1 ∧
    status (resp r1) = 200%nat ∧
    users (store r1) = users d ++ [stored] ∧
    signup hash_string e' reqBody' (store r1) = Some r2 ∧
    resp r2 = {| status := 409;
                 body := error_body "Email already registered" |} ∧
    store r2 = store r1.
Proof.
  intros Hn He Hu Hp ? ? ? ? Hnone Hfresh He' Hn' Hu' Hp'. do 3 eexists.
  split; [by apply (signup_new hash_string e reqBody d name email username
                      password)|].
  cbn [resp store status users]. split; [done|]. split; [done|].
  unfold signup, try_catch, signup_try.
  rewrite He', Hn', Hu', Hp', truthy_str by done.
  cbn [negb orb]. unfold bind_M.
  erewrite (findOne_first Users "email" (VStr email)); [done|done|].
  cbn [coll_get users]. apply first_match_appended; [done|].
  left. apply signup_stored_email.
Qed.

(** X7.  Two signups with different emails both succeed, given two unused
    and different generated identifiers: the collection grows by the two
    documents, in the order of the requests. *)
Theorem signup_two_users
    e1 e2 reqBody1 reqBody2 d name1 email1 username1 password1
    name2 email2 username2 password2 :
  get reqBody1 "name" = VStr name1 → get reqBody1 "email" = VStr email1 →
  get reqBody1 "username" = VStr username1 →
  get reqBody1 "password" = VStr password1 →
  name1 ≠ "" → email1 ≠ "" → username1 ≠ "" → password1 ≠ "" →
  get reqBody2 "name" = VStr name2 → get reqBody2 "email" = VStr email2 →
  get reqBody2 "username" = VStr username2 →
  get reqBody2 "password" = VStr password2 →
  name2 ≠ "" → email2 ≠ "" → username2 ≠ "" → password2 ≠ "" →
  email1 ≠ email2 → env_oid e1 ≠ env_oid e2 →
  (∀ u, u ∈ users d → ¬ field_is "email" (VStr email1) u) →
  (∀ u, u ∈ users d → ¬ field_is "email" (VStr email2) u) →
  (∀ u, u ∈ users d → get u "_id" ≠ VObjectId (env_oid e1)) →
  (∀ u, u ∈ users d → get u "_id" ≠ VObjectId (env_oid e2)) →
  ∃ r1 r2 stored1 stored2,
    signup hash_string e1 reqBody1 d = Some r1 ∧
    signup hash_string e2 reqBody2 (store r1) = Some r2 ∧
    status (resp r1) = 200%nat ∧ status (resp r2) = 200%nat ∧
    body_field (resp r1) "userId" = VObjectId (env_oid e1) ∧
    body_field (resp r2) "userId" = VObjectId (env_oid e2) ∧
    users (store r2) = users d ++ [stored1; stored2] ∧
    get stored1 "email" = VStr email1 ∧ get stored2 "email" = VStr email2 ∧
    products (store r2) = products d.
Proof.
  intros Hn1 He1 Hu1 Hp1 ? ? ? ? Hn2 He2 Hu2 Hp2 ? ? ? ? Hne Hoid
    Hnone1 Hnone2 Hfresh1 Hfresh2.
  set (stored1 := <["_id" := VObjectId (env_oid e1)]>
                    (signup_user e1 (VStr name1) (VStr email1) (VStr username1)
                       (VStr (hash_string password1 10 (env_salt e1))))).
  set (stored2 := <["_id" := VObjectId (env_oid e2)]>
                    (signup_user e2 (VStr name2) (VStr email2) (VStr username2)
                       (VStr (hash_string password2 10 (env_salt e2))))).
  eexists _, _, stored1, stored2.
  split; [by apply (signup_new hash_string e1 reqBody1 d name1 email1
                      username1 password1)|].
  cbn [resp store status users products]. fold stored1.
  split.
  { apply (signup_new hash_string e2 reqBody2 _ name2 email2 username2
             password2); try done; cbn [users].
    - intros u [Hu'|Hu']%elem_of_app; [by apply Hnone2|].
      apply list_elem_of_singleton in Hu' as ->. intros Hf.
      apply (signup_stored_not_array _ _ _ _ _ email1) in Hf; [|done].
      congruence.
    - intros u [Hu'|Hu']%elem_of_app; [by apply Hfresh2|].
      apply list_elem_of_singleton in Hu' as ->.
      unfold stored1, get. rewrite lookup_insert_eq. cbn. congruence. }
  cbn [resp store status users products body_field body]. fold stored2.
  split_and!; try done; first [ by rewrite <- app_assoc
                             | apply signup_stored_email ].
Qed.

End AccountMore.

(** ** Invariants of the handlers *)

Lemma ids_app docs doc : ids (docs ++ [doc]) = ids docs ++ [get doc "_id"].
Proof. unfold ids. by rewrite fmap_app. Qed.

Lemma NoDup_snoc_fresh (l : list value) (x : value) :
  NoDup l → x ∉ l → NoDup (l ++ [x]).
Proof.
  intros Hl Hx. apply NoDup_app. split_and!; [done| |apply NoDup_singleton].
  intros y Hy ->%list_elem_of_singleton. done.
Qed.

Lemma ids_fresh docs (id : value) :
  (∀ u, u ∈ docs → get u "_id" ≠ id) → id ∉ ids docs.
Proof.
  intros Hfresh (u & -> & Hu)%list_elem_of_fmap. by eapply Hfresh.
Qed.

Lemma emails_fresh docs (email : value) :
  (∀ u, u ∈ docs → ¬ field_is "email" email u) → email ∉ emails docs.
Proof.
  intros Hnone (u & -> & Hu)%list_elem_of_fmap. apply (Hnone u Hu). by left.
Qed.

Lemma get_insert_id (doc : document) (id : value) :
  get (<["_id" := id]> doc) "_id" = id.
Proof. unfold get. by rewrite lookup_insert_eq. Qed.

(** [$set] leaves the identifier of the document alone. *)
Lemma apply_set_keeps_id patch doc doc' :
  apply_set patch doc = inr doc' → get doc' "_id" = get doc "_id".
Proof.
  unfold apply_set, get.
  destruct (patch !! "_id") as [v|] eqn:Hv.
  - case_bool_decide as Hsame; [|done]. intros [= <-].
    by rewrite (lookup_union_Some_l _ _ _ _ Hv), <- Hsame.
  - intros [= <-]. by rewrite lookup_union_r.
Qed.

Lemma ids_insert docs i doc doc' :
  docs !! i = Some doc → get doc' "_id" = get doc "_id" →
  ids (<[i := doc']> docs) = ids docs.
Proof.
  intros Hi Hid. unfold ids. rewrite list_fmap_insert, Hid.
  apply list_insert_id. by rewrite list_lookup_fmap, Hi.
Qed.

Lemma ids_delete docs i : ids (delete i docs) = delete i (ids docs).
Proof.
  unfold ids. revert i. induction docs as [|doc docs IH]; intros [|i]; cbn;
    try done. by rewrite IH.
Qed.

Lemma NoDup_delete (l : list value) i : NoDup l → NoDup (delete i l).
Proof. intros Hl. eapply sublist_NoDup; [done|]. apply sublist_delete. Qed.

Lemma union_keeps_id (kept doc : document) :
  (∀ v, kept !! "_id" = Some v → get doc "_id" = v) →
  get (kept ∪ doc) "_id" = get doc "_id".
Proof.
  intros Hid. unfold get. destruct (kept !! "_id") as [v|] eqn:Hv.
  - rewrite (lookup_union_Some_l _ _ _ _ Hv). cbn. symmetry. by apply Hid.
  - by rewrite lookup_union_r.
Qed.

Section Invariants.

Variable hash_string : string → nat → string → string.
Variable compare_strings : string → string → string + bool.
Variable String_toLowerCase : string → string.
Variable Date_new : value → option Z.

(** X8.  The three reading handlers never write: whatever the request, the
    database after a login, a product listing or a product lookup is the
    database before it. *)
Theorem reading_handlers_do_not_write reqBody qs id d :
  (∀ r, login compare_strings String_toLowerCase reqBody d = Some r →
        store r = d) ∧
  (∀ r, listProducts qs d = Some r → store r = d) ∧
  (∀ r, getProduct id d = Some r → store r = d).
Proof.
  split_and!; intros r Hr.
  - by apply (login_cases compare_strings String_toLowerCase reqBody d r).
  - by apply (listProducts_cases qs d r).
  - by apply (getProduct_cases id d r).
Qed.

(** X9.  The account handlers leave the product collection alone and the
    catalog handlers leave the user collection alone. *)
Theorem collections_are_separate e reqBody id d :
  (∀ r, signup hash_string e reqBody d = Some r →
        products (store r) = products d) ∧
  (∀ r, googleSignup e reqBody d = Some r →
        products (store r) = products d) ∧
  (∀ r, createProduct e reqBody d = Some r → users (store r) = users d) ∧
  (∀ r, updateProduct Date_new id reqBody d = Some r →
        users (store r) = users d) ∧
  (∀ r, deleteProduct id d = Some r → users (store r) = users d).
Proof.
  split_and!; intros r Hr.
  - destruct (signup_cases hash_string e reqBody d r Hr)
      as [(_ & _ & -> & _)|[(_ & _ & -> & _)|[(_ & _ & ->)|
          (_ & _ & _ & pw & _ & ->)]]]; done.
  - destruct (googleSignup_cases e reqBody d r Hr)
      as [(_ & _ & -> & _)|[(u & _ & ->)|[(_ & _ & ->)|
          (_ & _ & _ & _ & ->)]]]; done.
  - destruct (createProduct_store e reqBody d r Hr)
      as [->|(stored & _ & _ & ->)]; done.
  - destruct (updateProduct_cases Date_new id reqBody d r Hr)
      as [(_ & ->)|(_ & _ & _ & [(_ & _ & ->)|(i & doc & _ & _ & _ &
          [(_ & _ & ->)|(_ & _ & ->)])])]; done.
  - destruct (deleteProduct_cases id d r Hr)
      as [(_ & ->)|(_ & _ & [(_ & _ & ->)|(i & doc & _ & _ & _ & _ & ->)])];
      done.
Qed.

(** X10.  Identifiers stay unique.  If no two documents of a collection
    have the same [_id], this still holds after a signup, a google-signup,
    a product creation, a product update or a product deletion: an insert
    with an identifier in use is refused, an update cannot change [_id], a
    deletion only removes. *)
Theorem identifiers_stay_unique e reqBody id d :
  NoDup (ids (users d)) → NoDup (ids (products d)) →
  (∀ r, signup hash_string e reqBody d = Some r →
        NoDup (ids (users (store r)))) ∧
  (∀ r, googleSignup e reqBody d = Some r →
        NoDup (ids (users (store r)))) ∧
  (∀ r, createProduct e reqBody d = Some r →
        NoDup (ids (products (store r)))) ∧
  (∀ r, updateProduct Date_new id reqBody d = Some r →
        NoDup (ids (products (store r)))) ∧
  (∀ r, deleteProduct id d = Some r →
        NoDup (ids (products (store r)))).
Proof.
  intros Hu Hp. split_and!; intros r Hr.
  - destruct (signup_cases hash_string e reqBody d r Hr)
      as [(_ & _ & -> & _)|[(_ & _ & -> & _)|[(_ & _ & ->)|
          (_ & _ & Hfresh & pw & _ & ->)]]]; try done.
    cbn [users]. rewrite ids_app, get_insert_id.
    by apply NoDup_snoc_fresh, ids_fresh.
  - destruct (googleSignup_cases e reqBody d r Hr)
      as [(_ & _ & -> & _)|[(u & _ & ->)|[(_ & _ & ->)|
          (_ & _ & Hfresh & _ & ->)]]]; try done.
    cbn [users]. rewrite ids_app, get_insert_id.
    by apply NoDup_snoc_fresh, ids_fresh.
  - destruct (createProduct_store e reqBody d r Hr)
      as [->|(stored & _ & Hfresh & ->)]; try done.
    cbn [products]. rewrite ids_app.
    by apply NoDup_snoc_fresh, ids_fresh.
  - destruct (updateProduct_cases Date_new id reqBody d r Hr)
      as [(_ & ->)|(_ & _ & _ & [(_ & _ & ->)|(i & doc & Hi & _ & _ &
          [(_ & _ & ->)|(_ & Hid & ->)])])]; try done.
    cbn [products]. rewrite (ids_insert _ _ doc); [done|done|].
    by apply union_keeps_id.
  - destruct (deleteProduct_cases id d r Hr)
      as [(_ & ->)|(_ & _ & [(_ & _ & ->)|(i & doc & _ & _ & _ & _ & ->)])];
      try done.
    cbn [products]. rewrite ids_delete. by apply NoDup_delete.
Qed.

(** X11.  One account per email, for registrations that run one at a
    time.  Let no two stored users have the same [email] value and let the
    email of the request be a string.  After a signup or a google-signup
    that runs from its lookup to its insert with no other request in
    between, this still holds: both insert only when the lookup of the
    email found nobody.  (When two signups overlap it fails, see
    [concurrent_signups_duplicate_email].) *)
Theorem emails_stay_unique e reqBody d email :
  get reqBody "email" = VStr email →
  NoDup (emails (users d)) →
  (∀ r, signup hash_string e reqBody d = Some r →
        NoDup (emails (users (store r)))) ∧
  (∀ r, googleSignup e reqBody d = Some r →
        NoDup (emails (users (store r)))).
Proof.
  intros He Hu. split; intros r Hr.
  - destruct (signup_cases hash_string e reqBody d r Hr)
      as [(_ & _ & -> & _)|[(_ & _ & -> & _)|[(_ & _ & ->)|
          (_ & Hnone & _ & pw & _ & ->)]]]; try done.
    cbn [users]. unfold emails. rewrite fmap_app. cbn [fmap list_fmap].
    rewrite signup_stored_email.
    by apply NoDup_snoc_fresh, emails_fresh.
  - destruct (googleSignup_cases e reqBody d r Hr)
      as [(_ & _ & -> & _)|[(u & _ & ->)|[(_ & _ & ->)|
          (_ & Hnone & _ & _ & ->)]]]; try done.
    cbn [users]. unfold emails. rewrite fmap_app. cbn [fmap list_fmap].
    replace (get (<["_id" := VObjectId (env_oid e)]> (google_user e reqBody))
               "email") with (get reqBody "email").
    + by apply NoDup_snoc_fresh, emails_fresh.
    + unfold get at 2, google_user, object. cbn [list_to_map foldr].
      by rewrite !lookup_insert_ne, lookup_insert_eq by done.
Qed.

(** A signup that runs alone is its presence check and lookup followed by
    [signup_resume]. *)
Lemma signup_try_resume e reqBody :
  signup_try hash_string e reqBody =
    if negb (truthy (get reqBody "name")) || negb (truthy (get reqBody "email"))
       || negb (truthy (get reqBody "username"))
       || negb (truthy (get reqBody "password"))
    then send 400 (error_body "All fields are required")
    else bind_M (findOne Users [("email", CEq (get reqBody "email"))])
           (signup_resume hash_string e reqBody).
Proof. reflexivity. Qed.

Lemma signup_resume_inserts e reqBody d name email username password :
  get reqBody "name" = VStr name → get reqBody "email" = VStr email →
  get reqBody "username" = VStr username →
  get reqBody "password" = VStr password →
  (∀ u, u ∈ users d → get u "_id" ≠ VObjectId (env_oid e)) →
  let newUser := signup_user e (VStr name) (VStr email) (VStr username)
                   (VStr (hash_string password 10 (env_salt e))) in
  try_catch (signup_resume hash_string e reqBody None) d =
    Some {| resp := {| status := 200;
                       body := VObj (object
                         [("success", VBool true);
                          ("message", VStr "User registered successfully");
                          ("userId", VObjectId (env_oid e))]) |};
            store := {| users := users d ++
                          [<["_id" := VObjectId (env_oid e)]> newUser];
                        products := products d |};
            trace := [OpInsertOne Users newUser] |}.
Proof.
  intros Hn He Hu Hp Hfresh newUser.
  unfold try_catch, signup_resume. rewrite Hn, He, Hu, Hp.
  unfold bind_M. cbn [bcrypt_hash ret_M]. fold newUser.
  rewrite insertOne_fresh; [done|done|done].
Qed.

(** X21.  Two signups that overlap.  Two requests for the same email, not
    yet registered, whose lookups are both answered before either of them
    inserts: both are told that nobody has the email, both resume, both
    insert and both answer 200.  The collection then holds two accounts
    with the same email, so the rule of one account per email does not
    survive requests that interleave at the [await] of the lookup. *)
Theorem concurrent_signups_duplicate_email
    e1 e2 reqBody1 reqBody2 d email name1 username1 password1
    name2 username2 password2 :
  get reqBody1 "name" = VStr name1 → get reqBody1 "email" = VStr email →
  get reqBody1 "username" = VStr username1 →
  get reqBody1 "password" = VStr password1 →
  get reqBody2 "name" = VStr name2 → get reqBody2 "email" = VStr email →
  get reqBody2 "username" = VStr username2 →
  get reqBody2 "password" = VStr password2 →
  (∀ u, u ∈ users d → ¬ field_is "email" (VStr email) u) →
  (∀ u, u ∈ users d → get u "_id" ≠ VObjectId (env_oid e1)) →
  (∀ u, u ∈ users d → get u "_id" ≠ VObjectId (env_oid e2)) →
  env_oid e1 ≠ env_oid e2 →
  let find_email body :=
    findOne Users [("email", CEq (get body "email"))] in
  ∃ r1 r2 stored1 stored2,
    find_email reqBody1 d =
      Ret None d [OpFindOne Users [("email", CEq (VStr email))]] ∧
    find_email reqBody2 d =
      Ret None d [OpFindOne Users [("email", CEq (VStr email))]] ∧
    try_catch (signup_resume hash_string e1 reqBody1 None) d = Some r1 ∧
    try_catch (signup_resume hash_string e2 reqBody2 None) (store r1)
      = Some r2 ∧
    status (resp r1) = 200%nat ∧ status (resp r2) = 200%nat ∧
    users (store r2) = users d ++ [stored1; stored2] ∧
    get stored1 "email" = VStr email ∧ get stored2 "email" = VStr email ∧
    ¬ NoDup (emails (users (store r2))).
Proof.
  intros Hn1 He1 Hu1 Hp1 Hn2 He2 Hu2 Hp2 Hnone Hfresh1 Hfresh2 Hne find_email.
  set (stored1 := <["_id" := VObjectId (env_oid e1)]>
                    (signup_user e1 (VStr name1) (VStr email) (VStr username1)
                       (VStr (hash_string password1 10 (env_salt e1))))).
  set (stored2 := <["_id" := VObjectId (env_oid e2)]>
                    (signup_user e2 (VStr name2) (VStr email) (VStr username2)
                       (VStr (hash_string password2 10 (env_salt e2))))).
  assert (get stored1 "email" = VStr email) as Hs1
    by apply signup_stored_email.
  assert (get stored2 "email" = VStr email) as Hs2
    by apply signup_stored_email.
  eexists _, _, stored1, stored2.
  split; [unfold find_email; rewrite He1; by apply findOne_nothing|].
  split; [unfold find_email; rewrite He2; by apply findOne_nothing|].
  split; [by apply (signup_resume_inserts e1 reqBody1 d name1 email
                      username1 password1)|].
  cbn [store]. split.
  { apply (signup_resume_inserts e2 reqBody2 _ name2 email username2
             password2); try done. cbn [users].
    intros u [Hu'|Hu']%elem_of_app; [by apply Hfresh2|].
    apply list_elem_of_singleton in Hu' as ->.
    unfold get. rewrite lookup_insert_eq. cbn. congruence. }
  cbn [resp store status users]. fold stored1 stored2.
  split_and!; try done.
  - by rewrite <- app_assoc.
  - unfold emails. rewrite !fmap_app. cbn [fmap list_fmap].
    rewrite Hs1, Hs2. intros Hnd.
    apply NoDup_app in Hnd as (_ & Hnd & _).
    apply (Hnd (VStr email)); [|by apply list_elem_of_singleton].
    apply elem_of_app. right. by apply list_elem_of_singleton.
Qed.

End Invariants.

(** ** The catalog handlers on a given collection *)


Lemma field_is_same_id (q : value) (doc doc' : document) :
  get doc' "_id" = get doc "_id" →
  field_is "_id" q doc → field_is "_id" q doc'.
Proof. unfold field_is. by intros ->. Qed.

Lemma field_is_object_id doc s :
  has_object_id doc → field_is "_id" (VObjectId s) doc →
  get doc "_id" = VObjectId s.
Proof.
  intros [s' Hs'] [Heq|(l & Hl & _)]; [done|]. rewrite Hs' in Hl. done.
Qed.

Lemma elem_of_delete_other (docs : list document) i j p :
  docs !! j = Some p → j ≠ i → p ∈ delete i docs.
Proof.
  intros Hj Hne. destruct (decide (j < i)%nat).
  - apply (list_elem_of_lookup_2 _ j). by rewrite list_lookup_delete_lt.
  - apply (list_elem_of_lookup_2 _ (pred j)).
    rewrite list_lookup_delete_ge by lia.
    by replace (S (pred j)) with j by lia.
Qed.

(** With unique object identifiers, deleting the first match leaves no
    match. *)
Lemma no_match_after_delete docs i doc s :
  NoDup (ids docs) → Forall has_object_id docs →
  docs !! i = Some doc → field_is "_id" (VObjectId s) doc →
  ∀ u, u ∈ delete i docs → ¬ field_is "_id" (VObjectId s) u.
Proof.
  intros Hnd Hoid Hi Hdoc u [k Hk]%list_elem_of_lookup_1 Hu.
  assert (∃ j, j ≠ i ∧ docs !! j = Some u) as (j & Hne & Hj).
  { destruct (decide (k < i)%nat).
    - exists k. rewrite list_lookup_delete_lt in Hk by done. split; [lia|done].
    - exists (S k). rewrite list_lookup_delete_ge in Hk by lia.
      split; [lia|done]. }
  rewrite Forall_forall in Hoid.
  apply field_is_object_id in Hdoc; [|by eapply Hoid, list_elem_of_lookup_2].
  apply field_is_object_id in Hu; [|by eapply Hoid, list_elem_of_lookup_2].
  apply Hne. apply (NoDup_lookup (ids docs) j i (VObjectId s)); [done|..];
    unfold ids; rewrite list_lookup_fmap.
  - by rewrite Hj; cbn; rewrite Hu.
  - by rewrite Hi; cbn; rewrite Hdoc.
Qed.

Lemma list_find_at k q docs i doc :
  docs !! i = Some doc → field_is k q doc →
  (∀ j v, docs !! j = Some v → (j < i)%nat → ¬ field_is k q v) →
  list_find (holds [(k, TEq q)]) docs = Some (i, doc).
Proof.
  intros Hi Hdoc Hlt. apply list_find_Some. split_and!; [done| |].
  - by apply holds_eq.
  - intros j v Hj Hji ?%holds_eq. by eapply Hlt.
Qed.

Lemma resolve_object_id k s docs :
  resolve [(k, CEq (VObjectId s))] docs = Some [(k, TEq (VObjectId s))].
Proof. by apply resolve_eq. Qed.

Section CatalogRuns.

Variable Date_new : value → option Z.


Lemma getProduct_missing id d :
  ObjectId_isValid id = true →
  (∀ u, u ∈ products d →
        ¬ field_is "_id" (VObjectId (string_map lower_ascii id)) u) →
  getProduct id d =
    Some {| resp := {| status := 404; body := error_body "Product not found" |};
            store := d;
            trace := [OpFindOne Products
                        [("_id", CEq (VObjectId (string_map lower_ascii id)))]] |}.
Proof.
  intros Hid Hp. unfold getProduct, try_catch, getProduct_try, bind_M,
    new_ObjectId. rewrite Hid. cbn [lift ret_M].
  by rewrite (findOne_nothing Products _ _ d).
Qed.

Lemma deleteProduct_missing id d :
  ObjectId_isValid id = true →
  (∀ u, u ∈ products d →
        ¬ field_is "_id" (VObjectId (string_map lower_ascii id)) u) →
  deleteProduct id d =
    Some {| resp := {| status := 200; body := delete_result 0 |}; store := d;
            trace := [OpDeleteOne Products
                        [("_id", CEq (VObjectId (string_map lower_ascii id)))]] |}.
Proof.
  intros Hid Hp. unfold deleteProduct, try_catch, deleteProduct_try, bind_M,
    new_ObjectId. rewrite Hid. cbn [lift ret_M]. unfold deleteOne.
  rewrite resolve_object_id. cbn [coll_get].
  by rewrite (list_find_nothing _ (field_is "_id"
    (VObjectId (string_map lower_ascii id)))) by (done || apply holds_eq).
Qed.


Lemma updateProduct_hit id reqBody d i doc :
  let oid := VObjectId (string_map lower_ascii id) in
  let patch := coerce_released_date Date_new reqBody in
  let kept := bson <$> patch in
  ObjectId_isValid id = true → plain_patch patch →
  products d !! i = Some doc → field_is "_id" oid doc →
  (∀ j v, products d !! j = Some v → (j < i)%nat → ¬ field_is "_id" oid v) →
  (∀ v, kept !! "_id" = Some v → get doc "_id" = v) →
  updateProduct Date_new id reqBody d =
    Some {| resp := {| status := 200;
                       body := update_result 1
                         (if bool_decide (kept ∪ doc = doc) then 0 else 1) |};
            store := {| users := users d;
                        products := <[i := kept ∪ doc]> (products d) |};
            trace := [OpUpdateOne Products [("_id", CEq oid)] patch] |}.
Proof.
  intros oid patch kept Hid Hplain Hi Hdoc Hlt Hsame.
  unfold updateProduct, try_catch, updateProduct_try.
  rewrite Hid. cbn [negb]. unfold bind_M, new_ObjectId. rewrite Hid.
  cbn [lift ret_M]. unfold updateOne.
  rewrite bool_decide_eq_true_2 by done.
  rewrite resolve_object_id. cbn [coll_get].
  rewrite (list_find_at _ _ _ i doc) by done.
  unfold apply_set. fold patch kept.
  destruct (kept !! "_id") as [v|] eqn:Hv; [|done].
  by rewrite bool_decide_eq_true_2 by auto.
Qed.

End CatalogRuns.

(** ** How the catalog operations compose *)

Lemma has_object_id_insert (doc : document) s :
  has_object_id (<["_id" := VObjectId s]> doc).
Proof. exists s. apply get_insert_id. Qed.

Section CatalogMore.

Variable Date_new : value → option Z.



(** X14.  A deleted product is gone.  In a collection whose identifiers
    are distinct [ObjectId]s, after [deleteProduct] on a well-formed
    identifier the lookup of that identifier answers 404, a second deletion
    answers 200 with [deletedCount] 0, and every product with another
    identifier is still there. *)
Theorem deleteProduct_then_gone id d r :
  let oid := VObjectId (string_map lower_ascii id) in
  NoDup (ids (products d)) → Forall has_object_id (products d) →
  ObjectId_isValid id = true →
  deleteProduct id d = Some r →
  (∃ r', getProduct id (store r) = Some r' ∧
         resp r' = {| status := 404;
                      body := error_body "Product not found" |}) ∧
  (∃ r', deleteProduct id (store r) = Some r' ∧
         resp r' = {| status := 200; body := delete_result 0 |} ∧
         store r' = store r) ∧
  (∀ p, p ∈ products d → ¬ field_is "_id" oid p → p ∈ products (store r)).
Proof.
  intros oid Hnd Hoid Hid Hr.
  assert ((∀ u, u ∈ products (store r) → ¬ field_is "_id" oid u) ∧
          ∀ p, p ∈ products d → ¬ field_is "_id" oid p →
               p ∈ products (store r)) as [Hnone Hkept].
  { destruct (deleteProduct_cases id d r Hr)
      as [(Hbad & _)|(_ & _ & [(Hnone & _ & ->)|
          (i & doc & Hi & (_ & _ & Hdoc & _) & _ & _ & ->)])].
    - congruence.
    - done.
    - cbn [products]. split.
      + by eapply no_match_after_delete.
      + intros p [j Hj]%list_elem_of_lookup_1 Hp.
        apply (elem_of_delete_other _ i j); [done|].
        intros ->. rewrite Hi in Hj. by simplify_eq. }
  split_and!; [| |done]; eexists.
  - split; [by apply getProduct_missing|done].
  - split; [by apply deleteProduct_missing|done].
Qed.

(** X15.  Repeating an update changes nothing more: the second
    [updateProduct] with the same identifier and body leaves the database
    as the first one left it and answers with the same status; when the
    answer is 200, it reports the same [matchedCount] and a
    [modifiedCount] of 0. *)
Theorem updateProduct_twice id reqBody d r1 :
  updateProduct Date_new id reqBody d = Some r1 →
  ∃ r2, updateProduct Date_new id reqBody (store r1) = Some r2 ∧
        store r2 = store r1 ∧
        status (resp r2) = status (resp r1) ∧
        (status (resp r1) = 200%nat →
         ∃ n m, body (resp r1) = update_result n m ∧
                body (resp r2) = update_result n 0).
Proof.
  intros Hr. pose proof (updateProduct_cases Date_new id reqBody d r1 Hr) as Hc.
  cbn zeta in Hc.
  destruct Hc as [(_ & ->)|(Hid & Hplain & _ & [(_ & Hresp & Hst)|
    (i & doc & Hi & (_ & _ & Hdoc & _) & Hlt &
       [(Hresp & _ & Hst)|(Hresp & Hsame & Hst)])])].
  - cbn [store]. rewrite Hr. eexists. split_and!; [done..|]. by cbn.
  - rewrite Hst, Hr. eexists. split_and!; [done..|].
    intros _. exists 0, 0. by rewrite Hresp.
  - rewrite Hst, Hr. eexists. split_and!; [done..|]. by rewrite Hresp.
  - set (kept := bson <$> coerce_released_date Date_new reqBody) in *.
    assert (get (kept ∪ doc) "_id" = get doc "_id") as Hkeep
      by (by apply union_keeps_id).
    rewrite Hst. eexists. split.
    { apply (updateProduct_hit Date_new id reqBody _ i (kept ∪ doc));
        cbn [products]; fold kept; [done|done| | | |].
      - apply list_lookup_insert_eq. by eapply lookup_lt_Some.
      - by apply (field_is_same_id _ doc).
      - intros j v Hj Hji. rewrite list_lookup_insert_ne in Hj by lia. eauto.
      - intros v Hv. rewrite Hkeep. by apply Hsame. }
    cbn [store resp status body users products]. fold kept.
    assert (kept ∪ (kept ∪ doc) = kept ∪ doc) as ->.
    { by rewrite (assoc_L (∪)), (idemp_L (∪)). }
    rewrite list_insert_insert_eq, bool_decide_eq_true_2 by done.
    split_and!; [done|by rewrite Hresp|]. intros _. rewrite Hresp. eauto.
Qed.


(** X17.  Every stored [_id] stays an [ObjectId] as long as no product is
    created with an [_id] of its own: if all documents of the two
    collections have an [ObjectId], so have they after a signup, a
    google-signup, a product update, a product deletion, and a product
    creation whose body has no [_id] or a [null] one.  The condition on the
    body is needed: a body that brings a string as [_id] and is accepted is
    stored under that string. *)
Theorem object_ids_preserved hash_string e reqBody id d :
  Forall has_object_id (users d) → Forall has_object_id (products d) →
  (∀ r, signup hash_string e reqBody d = Some r →
        Forall has_object_id (users (store r))) ∧
  (∀ r, googleSignup e reqBody d = Some r →
        Forall has_object_id (users (store r))) ∧
  (∀ r, createProduct e reqBody d = Some r →
        reqBody !! "_id" = None ∨ reqBody !! "_id" = Some VNull →
        Forall has_object_id (products (store r))) ∧
  (∀ r, updateProduct Date_new id reqBody d = Some r →
        Forall has_object_id (products (store r))) ∧
  (∀ r, deleteProduct id d = Some r →
        Forall has_object_id (products (store r))) ∧
  (∀ r s, createProduct e reqBody d = Some r →
          reqBody !! "_id" = Some (VStr s) →
          status (resp r) = 200%nat →
          body_field (resp r) "insertedId" = VStr s ∧
          products (store r) = products d ++ [reqBody] ∧
          ¬ Forall has_object_id (products (store r))).
Proof.
  intros Hu Hp. split_and!.
  - intros r Hr. destruct (signup_cases hash_string e reqBody d r Hr)
      as [(_ & _ & -> & _)|[(_ & _ & -> & _)|[(_ & _ & ->)|
          (_ & _ & _ & pw & _ & ->)]]]; try done.
    cbn [users]. apply Forall_app. split; [done|].
    apply Forall_singleton, has_object_id_insert.
  - intros r Hr. destruct (googleSignup_cases e reqBody d r Hr)
      as [(_ & _ & -> & _)|[(u & _ & ->)|[(_ & _ & ->)|
          (_ & _ & _ & _ & ->)]]]; try done.
    cbn [users]. apply Forall_app. split; [done|].
    apply Forall_singleton, has_object_id_insert.
  - intros r Hr Hbody. destruct (createProduct_cases e reqBody d r Hr)
      as (_ & oid & stored & Hhow & _ & [(_ & _ & ->)|(_ & _ & ->)]);
      try done.
    cbn [products]. apply Forall_app. split; [done|]. apply Forall_singleton.
    destruct Hhow as [(-> & -> & _)|(s & _ & _ & Hs)].
    + apply has_object_id_insert.
    + destruct Hbody as [Hb|Hb]; rewrite Hb in Hs; done.
  - intros r Hr. destruct (updateProduct_cases Date_new id reqBody d r Hr)
      as [(_ & ->)|(_ & _ & _ & [(_ & _ & ->)|(i & doc & Hi & _ & _ &
          [(_ & _ & ->)|(_ & Hid & ->)])])]; try done.
    cbn [products]. apply Forall_insert; [done|].
    rewrite Forall_forall in Hp.
    destruct (Hp doc) as [s Hs]; [by eapply list_elem_of_lookup_2|].
    exists s. rewrite <- Hs. by apply union_keeps_id.
  - intros r Hr. destruct (deleteProduct_cases id d r Hr)
      as [(_ & ->)|(_ & _ & [(_ & _ & ->)|(i & doc & _ & _ & _ & _ & ->)])];
      try done.
    cbn [products]. by apply Forall_delete.
  - intros r s Hr Hbody Hok. destruct (createProduct_cases e reqBody d r Hr)
      as (_ & oid & stored & Hhow & _ & [([msg Hresp] & _)|(Hresp & _ & Hst)]).
    { by rewrite Hresp in Hok. }
    destruct Hhow as [(_ & _ & [Hb|Hb])|(s' & -> & -> & Hs)];
      [by rewrite Hb in Hbody..|].
    rewrite Hs in Hbody. injection Hbody as ->.
    rewrite Hresp, Hst. cbn [products]. split_and!; try done.
    intros Hall. apply Forall_app in Hall as [_ Hall].
    apply Forall_singleton in Hall as [hex Hhex].
    unfold get in Hhex. rewrite Hs in Hhex. done.
Qed.

(** X18.  A search text that the store refuses as a regular expression:
    when the text is made of ordinary characters around one opening
    parenthesis that is never closed (and the category, if given, is a
    string), the listing fails in the store, whatever the collection holds,
    and the handler answers 500 with the store's message as
    [{ error: message }]; the database is unchanged. *)
Theorem listProducts_refused_pattern qs d s :
  get qs "search" = VStr s → unclosed_group s = true →
  (get qs "category" = VUndefined ∨ ∃ c, get qs "category" = VStr c) →
  ∃ msg,
    listProducts qs d =
      Some {| resp := {| status := 500; body := error_body msg |};
              store := d;
              trace := [OpFind Products (products_query qs)] |}.
Proof.
  intros Hs Hun Hcat. exists invalid_regex_message.
  assert (truthy (get qs "search") = true) as Ht.
  { rewrite Hs. destruct s; [done|]. done. }
  unfold listProducts, try_catch, listProducts_try, bind_M, find_toArray.
  assert (query_refused (products_query qs) = true) as ->; [|done].
  unfold query_refused, products_query. rewrite Ht, Hs.
  destruct Hcat as [->|[c ->]]; cbn [truthy app].
  - cbn. by rewrite Hun.
  - destruct (negb _); cbn; by rewrite Hun.
Qed.

End CatalogMore.

(** ** The shape of every answer *)

Lemma error_shaped_error st msg :
  error_shaped {| status := st; body := error_body msg |}.
Proof. right. by exists msg. Qed.

Lemma error_shaped_ok r : status r = 200%nat → error_shaped r.
Proof. by left. Qed.

Lemma get_insert_eq (doc : document) k v : get (<[k := v]> doc) k = v.
Proof. unfold get. by rewrite lookup_insert_eq. Qed.

Lemma get_insert_ne (doc : document) k k' v :
  k ≠ k' → get (<[k := v]> doc) k' = get doc k'.
Proof. intros. unfold get. by rewrite lookup_insert_ne. Qed.

Section Answers.

Variable hash_string : string → nat → string → string.
Variable compare_strings : string → string → string + bool.
Variable String_toLowerCase : string → string.
Variable Date_new : value → option Z.

(** X19.  The status codes of the eight handlers, and the shape of their
    errors: each handler answers only with the listed codes (a product
    listing with 200, or with 500 when the store fails), and every answer
    other than a 200 has the body [{ error: message }]. *)
Theorem response_contract e reqBody qs id d :
  (∀ r, signup hash_string e reqBody d = Some r →
        status (resp r) ∈ [200; 400; 409; 500]%nat ∧ error_shaped (resp r)) ∧
  (∀ r, login compare_strings String_toLowerCase reqBody d = Some r →
        status (resp r) ∈ [200; 400; 401; 500]%nat ∧ error_shaped (resp r)) ∧
  (∀ r, googleSignup e reqBody d = Some r →
        status (resp r) ∈ [200; 400; 500]%nat ∧ error_shaped (resp r)) ∧
  (∀ r, listProducts qs d = Some r →
        status (resp r) ∈ [200; 500]%nat ∧ error_shaped (resp r)) ∧
  (∀ r, getProduct id d = Some r →
        status (resp r) ∈ [200; 404; 500]%nat ∧ error_shaped (resp r)) ∧
  (∀ r, createProduct e reqBody d = Some r →
        status (resp r) ∈ [200; 500]%nat ∧ error_shaped (resp r)) ∧
  (∀ r, updateProduct Date_new id reqBody d = Some r →
        status (resp r) ∈ [200; 400; 500]%nat ∧ error_shaped (resp r)) ∧
  (∀ r, deleteProduct id d = Some r →
        status (resp r) ∈ [200; 500]%nat ∧ error_shaped (resp r)).
Proof.
  split_and!; intros r Hr.
  - destruct (signup_cases hash_string e reqBody d r Hr)
      as [(_ & -> & _)|[(_ & -> & _)|[([msg ->] & _)|(Hok & _)]]];
      rewrite ?Hok; (split; [set_solver|]);
      first [ by apply error_shaped_ok | apply error_shaped_error ].
  - destruct (login_cases compare_strings String_toLowerCase reqBody d r Hr)
      as (_ & _ & [-> |[-> |[[msg ->]|Hok]]]);
      rewrite ?Hok; (split; [cbn; set_solver|]);
      first [ by apply error_shaped_ok | apply error_shaped_error ].
  - destruct (googleSignup_cases e reqBody d r Hr)
      as [(_ & -> & _)|[(u & _ & ->)|[([msg ->] & _)|(Hok & _)]]];
      rewrite ?Hok; (split; [cbn; set_solver|]);
      first [ by apply error_shaped_ok | apply error_shaped_error ].
  - destruct (listProducts_cases qs d r Hr)
      as (_ & _ & [(_ & ->)|(_ & Hok & _)]);
      rewrite ?Hok; (split; [cbn; set_solver|]);
      first [ by apply error_shaped_ok | apply error_shaped_error ].
  - destruct (getProduct_cases id d r Hr)
      as (_ & [(_ & ->)|[(_ & _ & ->)|(_ & p & _ & ->)]]);
      (split; [cbn; set_solver|]);
      first [ by apply error_shaped_ok | apply error_shaped_error ].
  - destruct (createProduct_cases e reqBody d r Hr)
      as (_ & oid & stored & _ & _ & [([msg ->] & _)|(-> & _)]);
      (split; [cbn; set_solver|]);
      first [ by apply error_shaped_ok | apply error_shaped_error ].
  - pose proof (updateProduct_cases Date_new id reqBody d r Hr) as Hc.
    cbn zeta in Hc.
    destruct Hc as [(_ & ->)|(_ & _ & _ & [(_ & -> & _)|
      (i & doc & _ & _ & _ & [(-> & _)|(-> & _)])])];
      (split; [cbn; set_solver|]);
      first [ by apply error_shaped_ok | apply error_shaped_error ].
  - pose proof (deleteProduct_cases id d r Hr) as Hc. cbn zeta in Hc.
    destruct Hc as [(_ & ->)|(_ & _ & [(_ & -> & _)|
      (i & doc & _ & _ & _ & -> & _)])];
      (split; [cbn; set_solver|]);
      first [ by apply error_shaped_ok | apply error_shaped_error ].
Qed.

(** X20.  An account made by google-signup cannot log in with a password:
    the stored document has no [password], so [bcrypt.compare] rejects its
    arguments and the login answers 500, whatever password is sent. *)
Theorem googleSignup_then_login e reqBody reqBody' d email password :
  get reqBody "email" = VStr email → email ≠ "" →
  truthy (get reqBody "name") = true →
  truthy (get reqBody "googleId") = true →
  (∀ u, u ∈ users d → ¬ field_is "email" (VStr email) u) →
  (∀ u, u ∈ users d → get u "_id" ≠ VObjectId (env_oid e)) →
  get reqBody' "email" = VStr email →
  get reqBody' "password" = VStr password → password ≠ "" →
  String_toLowerCase email = email →
  ∃ r1 r2,
    googleSignup e reqBody d = Some r1 ∧ status (resp r1) = 200%nat ∧
    login compare_strings String_toLowerCase reqBody' (store r1) = Some r2 ∧
    resp r2 = {| status := 500;
                 body := error_body "Illegal arguments: string, undefined" |} ∧
    store r2 = store r1.
Proof.
  intros He Hne Hname Hgid Hnone Hfresh He' Hp' Hpne Hlow.
  eexists _, _. split; [by eapply googleSignup_new|].
  cbn [resp store status]. split; [done|].
  set (stored := <["_id" := VObjectId (env_oid e)]> (google_user e reqBody)).
  assert (get stored "email" = VStr email ∧ get stored "password" = VUndefined)
    as [Hse Hsp].
  { unfold stored, google_user, object. cbn [list_to_map foldr]. split.
    - by rewrite !get_insert_ne, get_insert_eq by done.
    - by rewrite !get_insert_ne by done. }
  split.
  { eapply (login_account_without_password _ _ _ _ email password stored);
      try done.
    rewrite Hlow. cbn [users]. apply first_match_appended; [done|by left]. }
  done.
Qed.

End Answers.

(** * The further statements on sample data *)


Lemma presence_checks_witness :
  lacks Cases.signup_no_email ["name"; "email"; "username"; "password"] ∧
  signup Sample.hash_string Sample.e1 Cases.signup_no_email Sample.db_ann =
    Some {| resp := {| status := 400;
                       body := error_body "All fields are required" |};
            store := Sample.db_ann; trace := [] |}.
Proof.
  assert (lacks Cases.signup_no_email ["name"; "email"; "username"; "password"])
    as Hlacks.
  { apply Exists_cons_tl, Exists_cons_hd. reflexivity. }
  split; [exact Hlacks|].
  exact (proj1 (presence_checks Sample.hash_string Sample.compare_strings
                  Sample.String_toLowerCase Sample.e1 Cases.signup_no_email
                  Sample.db_ann) Hlacks).
Defined.

Lemma signup_non_string_password_witness :
  signup Sample.hash_string Sample.e1 Cases.signup_numeric_password
    Sample.db_ann =
    Some {| resp := {| status := 500;
                       body := error_body "Illegal arguments: number, number" |};
            store := Sample.db_ann;
            trace := [OpFindOne Users
                        [("email", CEq (VStr "eve@example.com"))]] |}.
Proof.
  apply (signup_non_string_password Sample.hash_string Sample.e1
           Cases.signup_numeric_password Sample.db_ann "eve@example.com");
    first [ by apply no_user_with_email | sample ].
Defined.

Lemma login_non_string_email_witness :
  login Sample.compare_strings Sample.String_toLowerCase
    Cases.login_array_email Sample.db_ann =
    Some (server_error "email.toLowerCase is not a function" Sample.db_ann).
Proof.
  apply (login_non_string_email Sample.compare_strings
           Sample.String_toLowerCase Cases.login_array_email Sample.db_ann);
    sample.
Defined.

Lemma signup_then_login_witness :
  Sample.String_toLowerCase "carl@example.com" = "carl@example.com" ∧
  ∃ r1 r2,
    signup Sample.hash_string Sample.e1 Cases.signup_carl Sample.db_ann
      = Some r1 ∧
    body_field (resp r1) "userId" = VObjectId (env_oid Sample.e1) ∧
    login Sample.compare_strings Sample.String_toLowerCase Cases.login_carl
      (store r1) = Some r2 ∧
    store r2 = store r1 ∧
    resp r2 =
      {| status := 200;
         body := VObj (object
           [("success", VBool true);
            ("user", VObj (object [("id", VStr (env_oid Sample.e1));
                                   ("name", VStr "Carl");
                                   ("email", VStr "carl@example.com");
                                   ("username", VStr "carl")]))]) |}.
Proof.
  split; [reflexivity|].
  apply (signup_then_login Sample.hash_string Sample.compare_strings
           Sample.String_toLowerCase Sample.e1 Cases.signup_carl
           Cases.login_carl Sample.db_ann
           "Carl" "carl@example.com" "carl" "tr0ub4dor");
    first [ by apply no_user_with_email | by apply sample_oid_fresh | sample ].
Defined.

Lemma login_after_mixed_case_signup_witness :
  Sample.String_toLowerCase "Bob@Example.com" ≠ "Bob@Example.com" ∧
  ∃ r1 r2,
    signup Sample.hash_string Sample.e1 Sample.signup_bob Sample.db_ann
      = Some r1 ∧
    status (resp r1) = 200%nat ∧
    login Sample.compare_strings Sample.String_toLowerCase Cases.login_bob
      (store r1) = Some r2 ∧
    resp r2 = invalid_credentials ∧
    store r2 = store r1.
Proof.
  split; [by vm_compute|].
  apply (login_after_mixed_case_signup Sample.hash_string
           Sample.compare_strings Sample.String_toLowerCase Sample.e1
           Sample.signup_bob Cases.login_bob Sample.db_ann
           "Bob" "Bob@Example.com" "bob" "hunter2");
    first [ by apply no_user_with_email; vm_compute
          | by apply sample_oid_fresh | sample ].
Defined.

Lemma signup_twice_witness :
  ∃ r1 r2 stored,
    signup Sample.hash_string Sample.e1 Sample.signup_bob Sample.db_ann
      = Some r1 ∧
    status (resp r1) = 200%nat ∧
    users (store r1) = users Sample.db_ann ++ [stored] ∧
    signup Sample.hash_string Sample.e2 Sample.signup_bob (store r1)
      = Some r2 ∧
    resp r2 = {| status := 409;
                 body := error_body "Email already registered" |} ∧
    store r2 = store r1.
Proof.
  apply (signup_twice Sample.hash_string Sample.e1 Sample.e2
           Sample.signup_bob Sample.signup_bob Sample.db_ann
           "Bob" "Bob@Example.com" "bob" "hunter2");
    first [ by apply no_user_with_email | by apply sample_oid_fresh | sample ].
Defined.

Lemma signup_two_users_witness :
  ∃ r1 r2 stored1 stored2,
    signup Sample.hash_string Sample.e1 Sample.signup_bob Sample.db_ann
      = Some r1 ∧
    signup Sample.hash_string Sample.e2 Cases.signup_carl (store r1)
      = Some r2 ∧
    status (resp r1) = 200%nat ∧ status (resp r2) = 200%nat ∧
    body_field (resp r1) "userId" = VObjectId (env_oid Sample.e1) ∧
    body_field (resp r2) "userId" = VObjectId (env_oid Sample.e2) ∧
    users (store r2) = users Sample.db_ann ++ [stored1; stored2] ∧
    get stored1 "email" = VStr "Bob@Example.com" ∧
    get stored2 "email" = VStr "carl@example.com" ∧
    products (store r2) = products Sample.db_ann.
Proof.
  apply (signup_two_users Sample.hash_string Sample.e1 Sample.e2
           Sample.signup_bob Cases.signup_carl Sample.db_ann
           "Bob" "Bob@Example.com" "bob" "hunter2"
           "Carl" "carl@example.com" "carl" "tr0ub4dor");
    first [ by apply no_user_with_email | by apply sample_oid_fresh | sample ].
Defined.

Lemma reading_handlers_do_not_write_witness :
  ∃ r, login Sample.compare_strings Sample.String_toLowerCase Sample.login_ann
         Sample.db_shop = Some r ∧
       status (resp r) = 200%nat ∧ store r = Sample.db_shop.
Proof.
  pose (r := {| resp := {| status := 200;
                           body := VObj (object
                             [("success", VBool true);
                              ("user", VObj (object
                                 [("id", VStr "65f1a2b3c4d5e6f708192a00");
                                  ("name", VStr "Ann");
                                  ("email", VStr "ann@example.com");
                                  ("username", VStr "ann")]))]) |};
                store := Sample.db_shop;
                trace := [OpFindOne Users
                            [("email", CEq (VStr "ann@example.com"))]] |}).
  assert (login Sample.compare_strings Sample.String_toLowerCase
            Sample.login_ann Sample.db_shop = Some r) as Hrun
    by (by vm_compute).
  exists r. split; [exact Hrun|]. split; [reflexivity|].
  exact (proj1 (reading_handlers_do_not_write Sample.compare_strings
                  Sample.String_toLowerCase Sample.login_ann
                  Sample.query_laptop Sample.mouse_id Sample.db_shop) r Hrun).
Defined.

Lemma collections_are_separate_witness :
  ∃ r, createProduct Cases.e3 Cases.keyboard Sample.db_shop = Some r ∧
       status (resp r) = 200%nat ∧ users (store r) = users Sample.db_shop.
Proof.
  pose (r := {| resp := {| status := 200;
                           body := VObj (object
                             [("acknowledged", VBool true);
                              ("insertedId", VObjectId (env_oid Cases.e3))]) |};
                store := {| users := users Sample.db_shop;
                            products := products Sample.db_shop ++
                              [<["_id" := VObjectId (env_oid Cases.e3)]>
                                 Cases.keyboard] |};
                trace := [OpInsertOne Products Cases.keyboard] |}).
  assert (createProduct Cases.e3 Cases.keyboard Sample.db_shop = Some r)
    as Hrun by (by vm_compute).
  exists r. split; [exact Hrun|]. split; [reflexivity|].
  exact (proj1 (proj2 (proj2 (collections_are_separate Sample.hash_string
                  Sample.Date_new Cases.e3 Cases.keyboard Sample.mouse_id
                  Sample.db_shop))) r Hrun).
Defined.

Lemma shop_ids_distinct :
  NoDup (ids (users Sample.db_shop)) ∧ NoDup (ids (products Sample.db_shop)).
Proof. split; apply (bool_decide_unpack _); by vm_compute. Qed.

Lemma shop_emails_distinct : NoDup (emails (users Sample.db_shop)).
Proof. apply (bool_decide_unpack _). by vm_compute. Qed.

Lemma shop_object_ids :
  Forall has_object_id (users Sample.db_shop) ∧
  Forall has_object_id (products Sample.db_shop).
Proof. split; repeat constructor; by eexists. Qed.

Lemma identifiers_stay_unique_witness :
  NoDup (ids (products Sample.db_shop)) ∧
  ∃ r, deleteProduct Sample.mouse_id Sample.db_shop = Some r ∧
       products (store r) = [Sample.laptop] ∧
       NoDup (ids (products (store r))).
Proof.
  pose (r := {| resp := {| status := 200; body := delete_result 1 |};
                store := {| users := users Sample.db_shop;
                            products := [Sample.laptop] |};
                trace := [OpDeleteOne Products
                            [("_id", CEq (VObjectId Sample.mouse_id))]] |}).
  assert (deleteProduct Sample.mouse_id Sample.db_shop = Some r) as Hrun
    by (by vm_compute).
  split; [exact (proj2 shop_ids_distinct)|].
  exists r. split; [exact Hrun|]. split; [reflexivity|].
  exact (proj2 (proj2 (proj2 (proj2
           (identifiers_stay_unique Sample.hash_string Sample.Date_new
              Sample.e1 Sample.patch_price Sample.mouse_id Sample.db_shop
              (proj1 shop_ids_distinct) (proj2 shop_ids_distinct))))) r Hrun).
Defined.

Lemma emails_stay_unique_witness :
  NoDup (emails (users Sample.db_shop)) ∧
  ∃ r, googleSignup Sample.e1 Sample.google_dan Sample.db_shop = Some r ∧
       status (resp r) = 200%nat ∧
       NoDup (emails (users (store r))).
Proof.
  pose (stored := <["_id" := VObjectId (env_oid Sample.e1)]>
                    (google_user Sample.e1 Sample.google_dan)).
  pose (r := {| resp := {| status := 200;
                           body := VObj (object
                             [("success", VBool true);
                              ("user", VObj (<["id" := VStr (env_oid Sample.e1)]>
                                               stored))]) |};
                store := {| users := users Sample.db_shop ++ [stored];
                            products := products Sample.db_shop |};
                trace := [OpFindOne Users
                            [("email", CEq (VStr "dan@example.com"))];
                          OpInsertOne Users
                            (google_user Sample.e1 Sample.google_dan)] |}).
  assert (googleSignup Sample.e1 Sample.google_dan Sample.db_shop = Some r)
    as Hrun by (by vm_compute).
  split; [exact shop_emails_distinct|].
  exists r. split; [exact Hrun|]. split; [reflexivity|].
  exact (proj2 (emails_stay_unique Sample.hash_string Sample.e1
                  Sample.google_dan Sample.db_shop "dan@example.com"
                  eq_refl shop_emails_distinct)
           r Hrun).
Defined.

Lemma concurrent_signups_duplicate_email_witness :
  ∃ r1 r2 stored1 stored2,
    findOne Users [("email", CEq (get Sample.signup_bob "email"))]
      Sample.db_ann =
      Ret None Sample.db_ann
        [OpFindOne Users [("email", CEq (VStr "Bob@Example.com"))]] ∧
    findOne Users [("email", CEq (get Cases.signup_bob_again "email"))]
      Sample.db_ann =
      Ret None Sample.db_ann
        [OpFindOne Users [("email", CEq (VStr "Bob@Example.com"))]] ∧
    try_catch (signup_resume Sample.hash_string Sample.e1 Sample.signup_bob
                 None) Sample.db_ann = Some r1 ∧
    try_catch (signup_resume Sample.hash_string Sample.e2
                 Cases.signup_bob_again None) (store r1) = Some r2 ∧
    status (resp r1) = 200%nat ∧ status (resp r2) = 200%nat ∧
    users (store r2) = users Sample.db_ann ++ [stored1; stored2] ∧
    get stored1 "email" = VStr "Bob@Example.com" ∧
    get stored2 "email" = VStr "Bob@Example.com" ∧
    ¬ NoDup (emails (users (store r2))).
Proof.
  apply (concurrent_signups_duplicate_email Sample.hash_string
           Sample.e1 Sample.e2 Sample.signup_bob Cases.signup_bob_again
           Sample.db_ann "Bob@Example.com" "Bob" "bob" "hunter2"
           "Robert" "rob" "correct horse");
    first [ by apply no_user_with_email | by apply sample_oid_fresh | sample ].
Defined.



Lemma deleteProduct_then_gone_witness :
  ∃ r, deleteProduct Sample.mouse_id Sample.db_shop = Some r ∧
    (∃ r', getProduct Sample.mouse_id (store r) = Some r' ∧
           resp r' = {| status := 404;
                        body := error_body "Product not found" |}) ∧
    (∃ r', deleteProduct Sample.mouse_id (store r) = Some r' ∧
           resp r' = {| status := 200; body := delete_result 0 |} ∧
           store r' = store r) ∧
    (∀ p, p ∈ products Sample.db_shop →
          ¬ field_is "_id"
              (VObjectId (string_map lower_ascii Sample.mouse_id)) p →
          p ∈ products (store r)).
Proof.
  pose (r := {| resp := {| status := 200; body := delete_result 1 |};
                store := {| users := users Sample.db_shop;
                            products := [Sample.laptop] |};
                trace := [OpDeleteOne Products
                            [("_id", CEq (VObjectId Sample.mouse_id))]] |}).
  assert (deleteProduct Sample.mouse_id Sample.db_shop = Some r) as Hrun
    by (by vm_compute).
  exists r. split; [exact Hrun|].
  exact (deleteProduct_then_gone Sample.mouse_id Sample.db_shop r
           (proj2 shop_ids_distinct) (proj2 shop_object_ids) eq_refl Hrun).
Defined.

Lemma mouse_updated :
  ∃ r, updateProduct Sample.Date_new Sample.mouse_id Sample.patch_price
         Sample.db_shop = Some r ∧ status (resp r) = 200%nat.
Proof. eexists. split; by vm_compute. Defined.

Lemma updateProduct_twice_witness :
  ∃ r1 r2,
    updateProduct Sample.Date_new Sample.mouse_id Sample.patch_price
      Sample.db_shop = Some r1 ∧
    updateProduct Sample.Date_new Sample.mouse_id Sample.patch_price
      (store r1) = Some r2 ∧
    store r2 = store r1 ∧
    status (resp r2) = status (resp r1) ∧
    (status (resp r1) = 200%nat →
     ∃ n m, body (resp r1) = update_result n m ∧
            body (resp r2) = update_result n 0).
Proof.
  destruct mouse_updated as (r1 & Hrun & _).
  destruct (updateProduct_twice Sample.Date_new Sample.mouse_id
              Sample.patch_price Sample.db_shop r1 Hrun) as (r2 & Hr2).
  exists r1, r2. split; [exact Hrun|exact Hr2].
Defined.



Lemma object_ids_preserved_witness :
  Forall has_object_id (products Sample.db_shop) ∧
  Cases.keyboard !! "_id" = None ∧
  (∃ r, createProduct Cases.e3 Cases.keyboard Sample.db_shop = Some r ∧
        Forall has_object_id (products (store r))) ∧
  (∃ r, createProduct Cases.e3 Cases.usb_hub Sample.db_shop = Some r ∧
        body_field (resp r) "insertedId" = VStr "usb-hub" ∧
        products (store r) = products Sample.db_shop ++ [Cases.usb_hub] ∧
        ¬ Forall has_object_id (products (store r))).
Proof.
  split; [exact (proj2 shop_object_ids)|]. split; [reflexivity|].
  pose proof (object_ids_preserved Sample.Date_new Sample.hash_string Cases.e3
                Cases.keyboard Sample.mouse_id Sample.db_shop
                (proj1 shop_object_ids) (proj2 shop_object_ids)) as Hk.
  pose proof (object_ids_preserved Sample.Date_new Sample.hash_string Cases.e3
                Cases.usb_hub Sample.mouse_id Sample.db_shop
                (proj1 shop_object_ids) (proj2 shop_object_ids)) as Hh.
  split.
  - assert (∃ r, createProduct Cases.e3 Cases.keyboard Sample.db_shop = Some r)
      as [r Hrun] by (eexists; by vm_compute).
    exists r. split; [exact Hrun|].
    exact (proj1 (proj2 (proj2 Hk)) r Hrun (or_introl eq_refl)).
  - assert (∃ r, createProduct Cases.e3 Cases.usb_hub Sample.db_shop = Some r ∧
                 status (resp r) = 200%nat)
      as (r & Hrun & Hok) by (eexists; split; by vm_compute).
    exists r. split; [exact Hrun|].
    exact (proj2 (proj2 (proj2 (proj2 (proj2 Hh)))) r "usb-hub" Hrun
             eq_refl Hok).
Defined.

Lemma listProducts_refused_pattern_witness :
  unclosed_group "lap(" = true ∧
  ∃ msg,
    listProducts Cases.query_unclosed Sample.db_shop =
      Some {| resp := {| status := 500; body := error_body msg |};
              store := Sample.db_shop;
              trace := [OpFind Products
                          (products_query Cases.query_unclosed)] |}.
Proof.
  split; [reflexivity|].
  apply (listProducts_refused_pattern Cases.query_unclosed Sample.db_shop
           "lap(").
  - reflexivity.
  - reflexivity.
  - right. by exists "Laptop".
Defined.

Lemma response_contract_witness :
  (∃ r, getProduct Cases.absent_id Sample.db_shop = Some r ∧
        status (resp r) ∈ [200; 404; 500]%nat ∧ error_shaped (resp r)) ∧
  (∃ r, listProducts Cases.query_unclosed Sample.db_shop = Some r ∧
        status (resp r) ∈ [200; 500]%nat ∧ error_shaped (resp r)).
Proof.
  pose proof (response_contract Sample.hash_string Sample.compare_strings
                Sample.String_toLowerCase Sample.Date_new Sample.e1
                Sample.signup_bob Cases.query_unclosed Cases.absent_id
                Sample.db_shop) as H.
  split.
  - assert (∃ r, getProduct Cases.absent_id Sample.db_shop = Some r)
      as [r Hrun] by (eexists; by vm_compute).
    exists r. split; [exact Hrun|].
    exact (proj1 (proj2 (proj2 (proj2 (proj2 H)))) r Hrun).
  - assert (∃ r, listProducts Cases.query_unclosed Sample.db_shop = Some r)
      as [r Hrun] by (eexists; by vm_compute).
    exists r. split; [exact Hrun|].
    exact (proj1 (proj2 (proj2 (proj2 H))) r Hrun).
Defined.

Lemma googleSignup_then_login_witness :
  Sample.String_toLowerCase "dan@example.com" = "dan@example.com" ∧
  ∃ r1 r2,
    googleSignup Sample.e1 Sample.google_dan Sample.db_ann = Some r1 ∧
    status (resp r1) = 200%nat ∧
    login Sample.compare_strings Sample.String_toLowerCase Cases.login_dan
      (store r1) = Some r2 ∧
    resp r2 = {| status := 500;
                 body := error_body "Illegal arguments: string, undefined" |} ∧
    store r2 = store r1.
Proof.
  split; [reflexivity|].
  apply (googleSignup_then_login Sample.compare_strings
           Sample.String_toLowerCase Sample.e1 Sample.google_dan
           Cases.login_dan Sample.db_ann "dan@example.com" "anything");
    first [ by apply no_user_with_email | by apply sample_oid_fresh | sample ].
Defined.
